(** * APsystems EZHI local API integration: update coordinator and set_power service

    Shallow embedding of [custom_components/apsystems_ezhi_local/__init__.py]:
    the polling coordinator ([ApSystemsDataCoordinator]) and the [set_power]
    service handler, together with the properties of their failure handling.

    The coroutines are embedded as state-passing computations that also return
    the list of calls they make on their collaborators (device client, host
    scheduler, logger, listeners), in the order they happen. *)

From Stdlib Require Import ZArith List String Bool Lia.
Import ListNotations.
Local Open Scope string_scope.
Local Open Scope Z_scope.
Local Open Scope list_scope.

(* ================================================================== *)
(** ** Exceptions and outcomes *)

(** The exceptions the code tells apart: the two classes caught in
    [_async_update_data], the class the module defines itself, every other
    class derived from [Exception], and the classes derived from
    [BaseException] but not from [Exception] ([asyncio.CancelledError],
    [KeyboardInterrupt], ...), which [except Exception] does not catch. *)
Inductive exn : Type :=
| TimeoutError
| ClientConnectionError
| InverterNotAvailable
| OtherException (cls : string)
| OtherBaseException (cls : string).

(** [isinstance(e, Exception)]. *)
Definition is_Exception (e : exn) : bool :=
  match e with
  | OtherBaseException _ => false
  | _ => true
  end.

(** What evaluating a call gives: a value or a raised exception. *)
Inductive outcome (A : Type) : Type :=
| Returned (a : A)
| Raised (e : exn).
Arguments Returned {A} a.
Arguments Raised {A} e.

(* ================================================================== *)
(** ** Observable calls *)

Inductive level : Type := DEBUG | INFO | WARNING | ERROR.

(** Arguments interpolated in a log message. The elapsed time of the timing
    message is a floating-point difference of two clock readings; only its
    presence is recorded. *)
Inductive log_arg : Type :=
| ArgInt (z : Z)
| ArgStr (s : string)
| ArgBool (b : bool)
| ArgExn (e : exn)
| ArgElapsed.

Record log_record : Type := {
  log_level : level;
  log_msg : string;
  log_args : list log_arg;
  log_exc_info : bool
}.

(** One entry per call made on a collaborator. [EvGetDeviceInfo ok] records a
    call of [api.get_device_info()] and whether it returned. *)
Inductive event : Type :=
| EvUnsubRefresh
| EvDebouncedCancel
| EvGetDeviceInfo (ok : bool)
| EvGetOutputData
| EvSetPower (power : Z)
| EvLog (r : log_record)
| EvScheduleRefresh (seconds : Z)
| EvUpdateListeners.

(* ================================================================== *)
(** ** Collaborators *)

(** Modelled from the spec: the device client ([.api]) and the host ([hass],
    the coordinator base class) are not part of the module; the interfaces
    consumed are [get_device_info() -> DeviceInfo],
    [get_output_data() -> Snapshot] and [set_power(value) -> void], each of
    which may fail with any error, a stopping flag and a shutdown flag that
    can be read at any time, and the listeners. They are an interface here
    too: an arbitrary [world] that the awaited client calls may change in any
    way (they are the suspension points, other host tasks run meanwhile) and
    that the coordinator only observes through the flags it reads.
    [get_output_data] may return [None], as the annotation of
    [_async_update_data] says. [data_ne] is Python's [!=] on the cached data.
    The calls on the logger, the scheduler and the listeners return
    normally. *)
Class Environment : Type := {
  ReturnOutputData : Type;
  ReturnDeviceInfo : Type;
  data_ne : option ReturnOutputData -> option ReturnOutputData -> bool;
  world : Type;
  api_get_device_info : world -> outcome ReturnDeviceInfo * world;
  api_get_output_data : world -> outcome (option ReturnOutputData) * world;
  api_set_power : Z -> world -> outcome unit * world;
  hass_is_stopping : world -> bool;
  _shutdown_requested : world -> bool;
  _listeners : world -> bool;
  isEnabledFor_DEBUG : world -> bool
}.

(** The constants imported from [.const], which is not part of the module. *)
Class Const : Type := {
  MIN_VALUE : Z;
  MAX_VALUE : Z
}.

(* ================================================================== *)
(** ** Coordinator state and the task monad *)

Section Model.
Context {E : Environment}.

Record ApSystemsDataCoordinator : Type := {
  data : option ReturnOutputData;
  last_update_success : bool;
  last_exception : option exn;
  device_info : option ReturnDeviceInfo;
  always_update : bool;
  update_interval : Z;
  name : string
}.

Record state : Type := {
  self : ApSystemsDataCoordinator;
  env : world
}.

(** A coroutine: from a state to an outcome, the state it leaves, and the
    calls it made. *)
Definition task (A : Type) : Type := state -> outcome A * state * list event.

Definition ret {A : Type} (a : A) : task A :=
  fun s => (Returned a, s, []).

Definition raise {A : Type} (e : exn) : task A :=
  fun s => (Raised e, s, []).

Definition bind {A B : Type} (t : task A) (k : A -> task B) : task B :=
  fun s =>
    match t s with
    | (Returned a, s1, ev1) =>
        match k a s1 with
        | (r, s2, ev2) => (r, s2, ev1 ++ ev2)
        end
    | (Raised e, s1, ev1) => (Raised e, s1, ev1)
    end.

Definition emit (e : event) : task unit :=
  fun s => (Returned tt, s, [e]).

Definition get_self : task ApSystemsDataCoordinator :=
  fun s => (Returned (self s), s, []).

Definition get_env : task world :=
  fun s => (Returned (env s), s, []).

Definition modify_self (f : ApSystemsDataCoordinator -> ApSystemsDataCoordinator)
  : task unit :=
  fun s => (Returned tt, {| self := f (self s); env := env s |}, []).

(** [await op]: a call on the device client. *)
Definition await {A : Type} (op : world -> outcome A * world)
  (ev : outcome A -> event) : task A :=
  fun s =>
    match op (env s) with
    | (r, w) => (r, {| self := self s; env := w |}, [ev r])
    end.

(** [try: body except ...: handler e], [handler] standing for the except
    clauses together: it raises again what none of them catches. *)
Definition try_except {A : Type} (body : task A) (handler : exn -> task A)
  : task A :=
  fun s =>
    match body s with
    | (Returned a, s1, ev1) => (Returned a, s1, ev1)
    | (Raised e, s1, ev1) =>
        match handler e s1 with
        | (r, s2, ev2) => (r, s2, ev1 ++ ev2)
        end
    end.

(** [except Exception as e: handler e], as the last clause of a [try]: an
    exception that is not an instance of [Exception] is not caught. *)
Definition except_Exception {A : Type} (handler : exn -> task A)
  : exn -> task A :=
  fun e => if is_Exception e then handler e else raise e.

(** [try: body except ...: handler e else: orelse]: the [else] suite runs when
    the body returned, and is not guarded by the handlers. *)
Definition try_except_else {A B : Type} (body : task A)
  (handler : exn -> task B) (orelse : A -> task B) : task B :=
  fun s =>
    match body s with
    | (Returned a, s1, ev1) =>
        match orelse a s1 with
        | (r, s2, ev2) => (r, s2, ev1 ++ ev2)
        end
    | (Raised e, s1, ev1) =>
        match handler e s1 with
        | (r, s2, ev2) => (r, s2, ev1 ++ ev2)
        end
    end.

(** [try: body finally: final]: [final] always runs; an exception of [final]
    replaces the outcome of [body]. *)
Definition try_finally {A : Type} (body : task A) (final : task unit)
  : task A :=
  fun s =>
    match body s with
    | (r, s1, ev1) =>
        match final s1 with
        | (Returned _, s2, ev2) => (r, s2, ev1 ++ ev2)
        | (Raised e, s2, ev2) => (Raised e, s2, ev1 ++ ev2)
        end
    end.

Definition when (b : bool) (t : task unit) : task unit :=
  if b then t else ret tt.

End Model.

Declare Scope task_scope.
Delimit Scope task_scope with task.
Notation "x <- t ;; k" := (bind t (fun x => k))
  (at level 100, t at next level, right associativity) : task_scope.
Notation "t ;; k" := (bind t (fun _ => k))
  (at level 100, right associativity) : task_scope.
Local Open Scope task_scope.

(* ================================================================== *)
(** ** The module's code *)

Section Code.
Context {E : Environment} {K : Const}.

(** Field assignments [self.f = v]. *)
Definition set_data (v : option ReturnOutputData) : task unit :=
  modify_self (fun c =>
    {| data := v; last_update_success := last_update_success c;
       last_exception := last_exception c; device_info := device_info c;
       always_update := always_update c; update_interval := update_interval c;
       name := name c |}).

Definition set_last_update_success (v : bool) : task unit :=
  modify_self (fun c =>
    {| data := data c; last_update_success := v;
       last_exception := last_exception c; device_info := device_info c;
       always_update := always_update c; update_interval := update_interval c;
       name := name c |}).

Definition set_last_exception (v : option exn) : task unit :=
  modify_self (fun c =>
    {| data := data c; last_update_success := last_update_success c;
       last_exception := v; device_info := device_info c;
       always_update := always_update c; update_interval := update_interval c;
       name := name c |}).

Definition set_device_info (v : option ReturnDeviceInfo) : task unit :=
  modify_self (fun c =>
    {| data := data c; last_update_success := last_update_success c;
       last_exception := last_exception c; device_info := v;
       always_update := always_update c; update_interval := update_interval c;
       name := name c |}).

(** Logger calls. *)
Definition log (l : level) (msg : string) (args : list log_arg) : task unit :=
  emit (EvLog {| log_level := l; log_msg := msg; log_args := args;
                 log_exc_info := false |}).

(** [logger.exception]: error severity, with the traceback attached. *)
Definition logger_exception (msg : string) (args : list log_arg) : task unit :=
  emit (EvLog {| log_level := ERROR; log_msg := msg; log_args := args;
                 log_exc_info := true |}).

(** Calls on the device client. *)
Definition is_returned {A : Type} (r : outcome A) : bool :=
  match r with Returned _ => true | Raised _ => false end.

Definition get_device_info : task ReturnDeviceInfo :=
  await api_get_device_info (fun r => EvGetDeviceInfo (is_returned r)).

Definition get_output_data : task (option ReturnOutputData) :=
  await api_get_output_data (fun _ => EvGetOutputData).

Definition set_power (power : Z) : task unit :=
  await (api_set_power power) (fun _ => EvSetPower power).

(** Calls on the host's coordinator base class. *)
Definition _async_unsub_refresh : task unit := emit EvUnsubRefresh.
Definition _debounced_refresh_async_cancel : task unit := emit EvDebouncedCancel.
Definition async_update_listeners : task unit := emit EvUpdateListeners.
Definition _schedule_refresh : task unit :=
  c <- get_self ;; emit (EvScheduleRefresh (update_interval c)).

(** [set_power_service(call)], with [power = call.data["power"]]. *)
Definition set_power_service (power : Z) : task unit :=
  log DEBUG "Setting power for %s watts" [ArgInt power] ;;
  power' <- (if power <? MIN_VALUE then
               log WARNING "Power value %s is below minimum %s"
                 [ArgInt power; ArgInt MIN_VALUE] ;;
               ret MIN_VALUE
             else if power >? MAX_VALUE then
               log WARNING "Power value %s is above maximum %s"
                 [ArgInt power; ArgInt MAX_VALUE] ;;
               ret MAX_VALUE
             else ret power) ;;
  set_power power'.

(** [ApSystemsDataCoordinator.__init__(hass, api, interval)], for an
    interval that [timedelta(seconds=interval)] accepts (the call of the
    constructor, [new_coordinator] below, checks it). The base class
    constructor leaves [data] and [last_exception] unset and
    [last_update_success] true. *)
Definition __init__ (interval : option Z) : ApSystemsDataCoordinator :=
  let interval := match interval with None => 10 | Some i => i end in
  {| data := None;
     last_update_success := true;
     last_exception := None;
     device_info := None;
     always_update := true;
     update_interval := interval;
     name := "APSystems EZHI Data" |}.

(** [_async_update_data]. *)
Definition _async_update_data : task (option ReturnOutputData) :=
  try_except
    (c <- get_self ;;
     match device_info c with
     | None =>
         try_except
           (v <- get_device_info ;; set_device_info (Some v))
           (except_Exception
              (fun e =>
                 log WARNING "Failed to get device info: %s" [ArgExn e]))
     | Some _ => ret tt
     end ;;
     d <- get_output_data ;;
     ret d)
    (fun e =>
       match e with
       | TimeoutError | ClientConnectionError => raise InverterNotAvailable
       | _ => raise e
       end).

(** [_async_refresh(scheduled=...)]. The three other keyword arguments are
    not used by the body. The [try] statement yields the final value of the
    local [exc_triggered]. *)
Definition _async_refresh (scheduled : bool) : task unit :=
  _async_unsub_refresh ;;
  _debounced_refresh_async_cancel ;;
  w <- get_env ;;
  if _shutdown_requested w || (scheduled && hass_is_stopping w) then ret tt
  else
    let log_timing := isEnabledFor_DEBUG w in
    let auth_failed := false in
    c <- get_self ;;
    let previous_update_success := last_update_success c in
    let previous_data := data c in
    let exc_triggered := false in
    try_finally
      (try_except_else
         (d <- _async_update_data ;; set_data d)
         (fun e =>
            match e with
            | InverterNotAvailable =>
                set_last_update_success false ;;
                ret true
            | _ =>
                except_Exception
                  (fun err =>
                     set_last_exception (Some err) ;;
                     set_last_update_success false ;;
                     c <- get_self ;;
                     logger_exception "Unexpected error fetching %s data"
                       [ArgStr (name c)] ;;
                     ret true) e
            end)
         (fun _ =>
            c <- get_self ;;
            (if negb (last_update_success c) && negb exc_triggered then
               set_last_update_success true ;;
               log INFO "Fetching %s data recovered" [ArgStr (name c)]
             else ret tt) ;;
            ret exc_triggered))
      (when log_timing
         (c <- get_self ;;
          log DEBUG "Finished fetching %s data in %.3f seconds (success: %s)"
            [ArgStr (name c); ArgElapsed; ArgBool (last_update_success c)]) ;;
       w <- get_env ;;
       when (negb auth_failed && _listeners w && negb (hass_is_stopping w))
         _schedule_refresh) ;;
    c <- get_self ;;
    if negb (last_update_success c) && negb previous_update_success then ret tt
    else if always_update c
            || negb (Bool.eqb (last_update_success c) previous_update_success)
            || data_ne previous_data (data c)
    then async_update_listeners
    else ret tt.

End Code.

(* ================================================================== *)
(** ** Running the coordinator *)

Section Runs.
Context {E : Environment}.

Definition outcome_of {A : Type} (t : task A) (s : state) : outcome A :=
  fst (fst (t s)).

Definition state_after {A : Type} (t : task A) (s : state) : state :=
  snd (fst (t s)).

Definition events_of {A : Type} (t : task A) (s : state) : list event :=
  snd (t s).

(** The guard at the top of [_async_refresh]. *)
Definition refresh_aborts (scheduled : bool) (s : state) : bool :=
  _shutdown_requested (env s) || (scheduled && hass_is_stopping (env s)).

(** One call of [_async_refresh] by the host: what the host did to the world
    since the previous call, and the [scheduled] argument. *)
Record invocation : Type := {
  host_activity : world -> world;
  scheduled_call : bool
}.

Definition host_step (f : world -> world) : task unit :=
  fun s => (Returned tt, {| self := self s; env := f (env s) |}, []).

(** [t] and then [k], whatever the outcome of [t]: the host goes on calling
    a coordinator one refresh of which raised. The outcome is the first
    exception raised, if there is one. *)
Definition and_then (t k : task unit) : task unit :=
  fun s =>
    match t s with
    | (r, s1, ev1) =>
        match k s1 with
        | (r2, s2, ev2) =>
            (match r with Raised e => Raised e | Returned _ => r2 end,
             s2, ev1 ++ ev2)
        end
    end.

(** The successive refresh invocations of one coordinator. *)
Fixpoint lifetime (calls : list invocation) : task unit :=
  match calls with
  | [] => ret tt
  | i :: rest =>
      host_step (host_activity i) ;;
      and_then (_async_refresh (scheduled_call i)) (lifetime rest)
  end.

(** The device client raises nothing but instances of [Exception] on the
    two reads. *)
Definition reads_raise_only_Exceptions : Prop :=
  forall (w w' : world) (e : exn),
    (api_get_device_info w = (Raised e, w') -> is_Exception e = true) /\
    (api_get_output_data w = (Raised e, w') -> is_Exception e = true).

(** The results of the [get_device_info] calls of a trace, in order. *)
Fixpoint device_info_calls (evs : list event) : list bool :=
  match evs with
  | [] => []
  | EvGetDeviceInfo ok :: rest => ok :: device_info_calls rest
  | _ :: rest => device_info_calls rest
  end.

Definition is_device_call (e : event) : bool :=
  match e with
  | EvGetDeviceInfo _ | EvGetOutputData | EvSetPower _ => true
  | _ => false
  end.

Definition is_schedule (e : event) : bool :=
  match e with EvScheduleRefresh _ => true | _ => false end.

Definition is_warning (e : event) : bool :=
  match e with
  | EvLog {| log_level := WARNING |} => true
  | _ => false
  end.

End Runs.

(** Further observations on a trace. *)
Definition is_notify (e : event) : bool :=
  match e with EvUpdateListeners => true | _ => false end.

Definition is_data_request (e : event) : bool :=
  match e with EvGetOutputData => true | _ => false end.

Definition is_cancel (e : event) : bool :=
  match e with EvUnsubRefresh | EvDebouncedCancel => true | _ => false end.

Definition is_debug_log (e : event) : bool :=
  match e with
  | EvLog {| log_level := DEBUG |} => true
  | _ => false
  end.

(** A log call at info severity or above. *)
Definition is_loud_log (e : event) : bool :=
  match e with
  | EvLog {| log_level := DEBUG |} => false
  | EvLog _ => true
  | _ => false
  end.

Section Uncaught.
Context {E : Environment}.

(** The poll from [s] raises an exception that is not an instance of
    [Exception]: none of the handlers of [_async_refresh] catches it. *)
Definition poll_uncaught (s : state) : bool :=
  match outcome_of _async_update_data s with
  | Raised e => negb (is_Exception e)
  | Returned _ => false
  end.

(** The device info is unset in [s] and fetching it raises an exception
    that is not an instance of [Exception]. *)
Definition info_fetch_uncaught (s : state) : bool :=
  match device_info (self s) with
  | Some _ => false
  | None =>
      match fst (api_get_device_info (env s)) with
      | Raised e => negb (is_Exception e)
      | Returned _ => false
      end
  end.

End Uncaught.

(** The values passed to [api.set_power], in order. *)
Fixpoint sent_powers (evs : list event) : list Z :=
  match evs with
  | [] => []
  | EvSetPower p :: rest => p :: sent_powers rest
  | _ :: rest => sent_powers rest
  end.

(* ================================================================== *)
(** ** Setting up and unloading a config entry *)

(** The values of a config entry the code handles: [None], integers and
    strings. *)
Inductive value : Type :=
| VNone
| VInt (z : Z)
| VStr (s : string).

(** A Python dict with string keys, as its lookup function. *)
Definition dict (V : Type) : Type := string -> option V.

Definition dict_empty {V : Type} : dict V := fun _ => None.

(** [d[k] = v]. *)
Definition dict_set {V : Type} (k : string) (v : V) (d : dict V) : dict V :=
  fun k' => if String.eqb k' k then Some v else d k'.

(** [d] without the key [k]. *)
Definition dict_del {V : Type} (k : string) (d : dict V) : dict V :=
  fun k' => if String.eqb k' k then None else d k'.

Record ConfigEntry : Type := {
  entry_id : string;
  entry_data : dict value
}.

Inductive Platform : Type := SENSOR | NUMBER | SWITCH.

Definition PLATFORMS : list Platform := [SENSOR; NUMBER; SWITCH].

(** The device client as [async_setup_entry] constructs it. *)
Record APsystemsEZHI : Type := {
  ip_address : value;
  timeout : Z
}.

(** The names imported from [.const] and from the host's constants, which
    are not part of the module. *)
Class Names : Type := {
  DOMAIN : string;
  UPDATE_INTERVAL : string;
  CONF_IP_ADDRESS : string
}.

Section Setup.
Context {E : Environment} {N : Names}.

(** What [hass.data[DOMAIN][entry_id]] holds under a key: a value copied from
    the entry, or the coordinator (with the client it was given). *)
Inductive stored : Type :=
| StoredValue (v : value)
| StoredCoordinator (c : ApSystemsDataCoordinator) (api : APsystemsEZHI).

(** A call of [hass.services.async_register]: the domain, the service name
    and the client the handler is closed over. *)
Record registration : Type := {
  service_domain : string;
  service_name : string;
  service_api : APsystemsEZHI
}.

(** The parts of [hass] the module writes: [hass.data], by domain, entry id
    and key, and the service registrations made, in order. The awaited host
    calls get the current [hass] and answer; they are taken not to write
    these parts. *)
Record HomeAssistant : Type := {
  hass_data : dict (dict (dict stored));
  hass_services : list registration
}.

Definition KeyError : exn := OtherException "KeyError".
Definition TypeError : exn := OtherException "TypeError".

Definition OverflowError : exn := OtherException "OverflowError".

(** [timedelta(seconds=i)] accepts [i] when the number of days, [i // 86400],
    has a magnitude of 999999999 at most, and raises [OverflowError]
    otherwise. *)
Definition timedelta_accepts (i : Z) : bool :=
  (-999999999 <=? i / 86400) && (i / 86400 <=? 999999999).

(** [ApSystemsDataCoordinator(hass, api, interval=v)] with [v] the result of
    [entry.data.get(UPDATE_INTERVAL)]: [timedelta(seconds=...)] takes a
    number within its range, and raises [TypeError] on a string. *)
Definition new_coordinator (v : option value)
  : outcome ApSystemsDataCoordinator :=
  match v with
  | None | Some VNone => Returned (__init__ None)
  | Some (VInt i) =>
      if timedelta_accepts i then Returned (__init__ (Some i))
      else Raised OverflowError
  | Some (VStr _) => Raised TypeError
  end.

(** [hass.data.setdefault(DOMAIN, {})]. *)
Definition setdefault_domain (hass : HomeAssistant) : HomeAssistant :=
  match hass_data hass DOMAIN with
  | Some _ => hass
  | None =>
      {| hass_data := dict_set DOMAIN dict_empty (hass_data hass);
         hass_services := hass_services hass |}
  end.

(** [{**entry.data, "COORDINATOR": coordinator}]. *)
Definition entry_store (entry : ConfigEntry)
  (coordinator : ApSystemsDataCoordinator) (api : APsystemsEZHI)
  : dict stored :=
  dict_set "COORDINATOR" (StoredCoordinator coordinator api)
    (fun k => option_map StoredValue (entry_data entry k)).

(** [async_setup_entry(hass, entry)]. *)
Definition async_setup_entry
  (async_forward_entry_setups :
     HomeAssistant -> ConfigEntry -> list Platform -> outcome unit)
  (entry : ConfigEntry) (hass : HomeAssistant)
  : outcome bool * HomeAssistant :=
  let hass := setdefault_domain hass in
  match entry_data entry CONF_IP_ADDRESS with
  | None => (Raised KeyError, hass)
  | Some ip =>
      let api := {| ip_address := ip; timeout := 8 |} in
      match new_coordinator (entry_data entry UPDATE_INTERVAL) with
      | Raised e => (Raised e, hass)
      | Returned coordinator =>
          match hass_data hass DOMAIN with
          | None => (Raised KeyError, hass)
          | Some entries =>
              let hass :=
                {| hass_data :=
                     dict_set DOMAIN
                       (dict_set (entry_id entry)
                          (entry_store entry coordinator api) entries)
                       (hass_data hass);
                   hass_services := hass_services hass |} in
              match async_forward_entry_setups hass entry PLATFORMS with
              | Raised e => (Raised e, hass)
              | Returned _ =>
                  (Returned true,
                   {| hass_data := hass_data hass;
                      hass_services :=
                        hass_services hass ++
                        [{| service_domain := DOMAIN;
                            service_name := "set_power";
                            service_api := api |}] |})
              end
          end
      end
  end.

(** [async_unload_entry(hass, entry)]: [pop] raises [KeyError] on a key that
    is not there. *)
Definition async_unload_entry
  (async_unload_platforms :
     HomeAssistant -> ConfigEntry -> list Platform -> outcome bool)
  (entry : ConfigEntry) (hass : HomeAssistant)
  : outcome bool * HomeAssistant :=
  match async_unload_platforms hass entry PLATFORMS with
  | Raised e => (Raised e, hass)
  | Returned unload_ok =>
      if unload_ok then
        match hass_data hass DOMAIN with
        | None => (Raised KeyError, hass)
        | Some entries =>
            match entries (entry_id entry) with
            | None => (Raised KeyError, hass)
            | Some _ =>
                (Returned unload_ok,
                 {| hass_data :=
                      dict_set DOMAIN (dict_del (entry_id entry) entries)
                        (hass_data hass);
                    hass_services := hass_services hass |})
            end
        end
      else (Returned unload_ok, hass)
  end.

(** [update_listener(hass, entry)]. *)
Definition update_listener
  (async_reload : HomeAssistant -> string -> outcome unit)
  (entry : ConfigEntry) (hass : HomeAssistant)
  : outcome unit * HomeAssistant :=
  match async_reload hass (entry_id entry) with
  | Raised e => (Raised e, hass)
  | Returned _ => (Returned tt, hass)
  end.

(** [hass.data[dm][id]], when both keys are there. *)
Definition stored_entry (hass : HomeAssistant) (dm id : string)
  : option (dict stored) :=
  match hass_data hass dm with
  | Some entries => entries id
  | None => None
  end.

End Setup.

(* ================================================================== *)
(** ** A scripted device and host

    A concrete [Environment]: the device client answers from scripts of
    replies (a timeout once a script is exhausted), the host flags are plain
    fields. Used to run the code on examples. *)

Record script : Type := {
  info_replies : list (outcome string);
  data_replies : list (outcome (option Z));
  power_replies : list (outcome unit);
  stopping : bool;
  shutdown : bool;
  has_listeners : bool;
  debug : bool
}.

Definition next_reply {A : Type} (l : list (outcome A))
  : outcome A * list (outcome A) :=
  match l with
  | [] => (Raised TimeoutError, [])
  | r :: rest => (r, rest)
  end.

Definition option_Z_ne (a b : option Z) : bool :=
  match a, b with
  | None, None => false
  | Some x, Some y => negb (x =? y)
  | _, _ => true
  end.

Definition scripted : Environment := {|
  ReturnOutputData := Z;
  ReturnDeviceInfo := string;
  data_ne := option_Z_ne;
  world := script;
  api_get_device_info := fun w =>
    let (r, rest) := next_reply (info_replies w) in
    (r, {| info_replies := rest; data_replies := data_replies w;
           power_replies := power_replies w; stopping := stopping w;
           shutdown := shutdown w; has_listeners := has_listeners w;
           debug := debug w |});
  api_get_output_data := fun w =>
    let (r, rest) := next_reply (data_replies w) in
    (r, {| info_replies := info_replies w; data_replies := rest;
           power_replies := power_replies w; stopping := stopping w;
           shutdown := shutdown w; has_listeners := has_listeners w;
           debug := debug w |});
  api_set_power := fun _ w =>
    let (r, rest) := next_reply (power_replies w) in
    (r, {| info_replies := info_replies w; data_replies := data_replies w;
           power_replies := rest; stopping := stopping w;
           shutdown := shutdown w; has_listeners := has_listeners w;
           debug := debug w |});
  hass_is_stopping := stopping;
  _shutdown_requested := shutdown;
  _listeners := has_listeners;
  isEnabledFor_DEBUG := debug
|}.

(** A device that cannot be reached: every call on it fails at the
    connection level. The world is the host's stopping flag. *)
Definition offline : Environment := {|
  ReturnOutputData := Z;
  ReturnDeviceInfo := string;
  data_ne := option_Z_ne;
  world := bool;
  api_get_device_info := fun w => (Raised TimeoutError, w);
  api_get_output_data := fun w => (Raised ClientConnectionError, w);
  api_set_power := fun _ w => (Raised TimeoutError, w);
  hass_is_stopping := fun w => w;
  _shutdown_requested := fun _ => false;
  _listeners := fun _ => true;
  isEnabledFor_DEBUG := fun _ => false
|}.

(** A new coordinator in front of the unreachable device. *)
Definition offline_start : @state offline :=
  @Build_state offline (@__init__ offline None) false.

(** The bounds used in the examples of the specification. *)
Definition example_bounds : Const := {| MIN_VALUE := 20; MAX_VALUE := 100 |}.

Section Examples.
#[local] Existing Instance scripted.

(** A coordinator whose last poll failed with an unexpected error. *)
Definition failed_coordinator : ApSystemsDataCoordinator :=
  {| data := Some 7;
     last_update_success := false;
     last_exception := Some (OtherException "ValueError");
     device_info := Some "EZHI";
     always_update := true;
     update_interval := 10;
     name := "APSystems EZHI Data" |}.

Definition quiet_host (infos : list (outcome string))
  (readings : list (outcome (option Z))) : script :=
  {| info_replies := infos; data_replies := readings; power_replies := [];
     stopping := false; shutdown := false; has_listeners := true;
     debug := false |}.

(** The device answers the next data request with the reading [42]. *)
Definition recovering : state :=
  {| self := failed_coordinator; env := quiet_host [] [Returned (Some 42)] |}.

Definition still_down : state :=
  {| self := failed_coordinator;
     env := quiet_host [] [Raised ClientConnectionError] |}.

Definition crashing : state :=
  {| self := __init__ None;
     env := quiet_host [Raised TimeoutError]
              [Raised (OtherException "KeyError")] |}.

Definition shutting_down : state :=
  {| self := failed_coordinator;
     env := {| info_replies := []; data_replies := [Returned (Some 42)];
               power_replies := []; stopping := true; shutdown := false;
               has_listeners := true; debug := true |} |}.

(** A device that refuses the next power command. *)
Definition refusing : state :=
  {| self := failed_coordinator;
     env := {| info_replies := []; data_replies := [];
               power_replies := [Raised (OtherException "InverterReturnedError")];
               stopping := false; shutdown := false; has_listeners := true;
               debug := false |} |}.

(** A new coordinator in front of a device that answers both requests. *)
Definition starting : state :=
  {| self := __init__ None;
     env := quiet_host [Returned "EZHI"] [Returned (Some 42)] |}.

(** A new coordinator whose data request is cancelled by the host:
    [asyncio.CancelledError] derives from [BaseException] only. *)
Definition cancelled : state :=
  {| self := __init__ None;
     env := quiet_host [Returned "EZHI"]
              [Raised (OtherBaseException "CancelledError")] |}.

(** A coordinator with an unset device info whose fetch is cancelled. *)
Definition cancelled_early : state :=
  {| self := __init__ None;
     env := quiet_host [Raised (OtherBaseException "CancelledError")]
              [Returned (Some 42)] |}.

(** A new coordinator in front of a device that gives its info and then
    times out on the data request. *)
Definition half_answering : state :=
  {| self := __init__ None;
     env := quiet_host [Returned "EZHI"] [Raised TimeoutError] |}.

(** The recovery of [recovering], with debug logging enabled. *)
Definition debugging : state :=
  {| self := failed_coordinator;
     env := {| info_replies := []; data_replies := [Returned (Some 42)];
               power_replies := []; stopping := false; shutdown := false;
               has_listeners := true; debug := true |} |}.

(** A device that accepts the next power command. *)
Definition accepting : state :=
  {| self := failed_coordinator;
     env := {| info_replies := []; data_replies := [];
               power_replies := [Returned tt];
               stopping := false; shutdown := false; has_listeners := true;
               debug := false |} |}.

End Examples.

Section SetupExamples.
#[local] Existing Instance scripted.

Definition example_names : Names :=
  {| DOMAIN := "apsystems_ezhi_local";
     UPDATE_INTERVAL := "update_interval";
     CONF_IP_ADDRESS := "ip_address" |}.

(** A host with nothing stored and nothing registered. *)
Definition empty_hass : HomeAssistant :=
  {| hass_data := dict_empty; hass_services := [] |}.

Definition garage_entry : ConfigEntry :=
  {| entry_id := "garage";
     entry_data :=
       dict_set "ip_address" (VStr "192.168.1.50")
         (dict_set "update_interval" (VInt 30) dict_empty) |}.

Definition roof_entry : ConfigEntry :=
  {| entry_id := "roof";
     entry_data := dict_set "ip_address" (VStr "192.168.1.51") dict_empty |}.

(** An entry whose data lacks the address. *)
Definition broken_entry : ConfigEntry :=
  {| entry_id := "broken";
     entry_data := dict_set "update_interval" (VInt 30) dict_empty |}.

Definition platforms_ok
  : HomeAssistant -> ConfigEntry -> list Platform ->
    outcome unit :=
  fun _ _ _ => Returned tt.

Definition platforms_fail
  : HomeAssistant -> ConfigEntry -> list Platform ->
    outcome unit :=
  fun _ _ _ => Raised (OtherException "ConfigEntryNotReady").

Definition unload_answers (b : bool)
  : HomeAssistant -> ConfigEntry -> list Platform ->
    outcome bool :=
  fun _ _ _ => Returned b.

End SetupExamples.

(* ================================================================== *)
(** ** Proof automation *)

Ltac unfold_update :=
  unfold _async_update_data, get_device_info, get_output_data,
    set_device_info, log, try_except, except_Exception, await, modify_self,
    get_self, emit, bind, raise, ret.

Ltac unfold_refresh :=
  unfold _async_refresh, _schedule_refresh,
    async_update_listeners, _async_unsub_refresh,
    _debounced_refresh_async_cancel,
    set_data, set_last_update_success, set_last_exception,
    log, logger_exception, when, try_finally, try_except_else,
    except_Exception, modify_self, get_env, get_self, emit, bind, raise, ret.

Ltac case_if :=
  match goal with
  | |- context [if ?b then _ else _] => destruct b eqn:?
  end.

Ltac case_ifs := repeat (case_if; cbn in *).

(* ================================================================== *)
(** ** Properties of one poll *)

Section PollProperties.
Context {E : Environment}.

(** A poll writes no coordinator field other than [device_info]. *)
Lemma update_data_frame (s : state) :
  let c := self (snd (fst (_async_update_data s))) in
  data c = data (self s) /\
  last_update_success c = last_update_success (self s) /\
  last_exception c = last_exception (self s) /\
  always_update c = always_update (self s) /\
  update_interval c = update_interval (self s) /\
  name c = name (self s).
Proof.
  unfold_update. cbn.
  destruct (device_info (self s)); cbn.
  - destruct (api_get_output_data (env s)) as [[d|e] w]; cbn;
      [|destruct e]; cbn; repeat split.
  - destruct (api_get_device_info (env s)) as [[v|e1] w1]; cbn;
      try destruct e1; cbn;
      try (destruct (api_get_output_data w1) as [[d|e] w]; cbn;
           try destruct e); cbn; repeat split.
Qed.

(** The only calls of a poll are the two device reads and the warning. *)
Lemma update_data_events (s : state) (ev : event) :
  In ev (events_of _async_update_data s) ->
  ev = EvGetOutputData \/
  (exists ok, ev = EvGetDeviceInfo ok) \/
  is_warning ev = true.
Proof.
  unfold events_of. unfold_update. cbn.
  destruct (device_info (self s)); cbn.
  - destruct (api_get_output_data (env s)) as [[d|e] w]; cbn;
      [|destruct e]; cbn; intuition eauto.
  - destruct (api_get_device_info (env s)) as [[v|e1] w1]; cbn;
      try destruct e1; cbn;
      try (destruct (api_get_output_data w1) as [[d|e] w]; cbn;
           try destruct e); cbn; intuition (subst; eauto).
Qed.

Lemma update_data_no_listeners (s : state) :
  ~ In EvUpdateListeners (events_of _async_update_data s).
Proof.
  intros H. apply update_data_events in H.
  destruct H as [H|[[ok H]|H]]; discriminate.
Qed.

Lemma update_data_no_schedule (s : state) :
  filter is_schedule (events_of _async_update_data s) = [].
Proof.
  destruct (filter is_schedule (events_of _async_update_data s))
    as [|ev l] eqn:F; [reflexivity|].
  assert (H : In ev (filter is_schedule (events_of _async_update_data s)))
    by (rewrite F; left; reflexivity).
  apply filter_In in H. destruct H as [H Hs].
  apply update_data_events in H.
  destruct H as [H|[[ok H]|H]]; subst; try discriminate.
  destruct ev; discriminate.
Qed.

(** A poll never raises one of the two connection-level classes itself. *)
Lemma update_data_raises (s : state) (e : exn) :
  outcome_of _async_update_data s = Raised e ->
  e <> TimeoutError /\ e <> ClientConnectionError.
Proof.
  unfold outcome_of. unfold_update. cbn.
  destruct (device_info (self s)); cbn.
  - destruct (api_get_output_data (env s)) as [[d|e0] w]; cbn;
      [|destruct e0]; cbn; intros H; inversion H; split; discriminate.
  - destruct (api_get_device_info (env s)) as [[v|e1] w1]; cbn;
      try destruct e1; cbn;
      try (destruct (api_get_output_data w1) as [[d|e0] w]; cbn;
           try destruct e0); cbn; intros H; inversion H; split; discriminate.
Qed.

End PollProperties.

(** Case analysis of one refresh: aborted, poll returned, poll raised. *)
Ltac run_refresh scheduled s :=
  unfold outcome_of, state_after, events_of in *;
  let F := fresh "Hframe" in
  pose proof (update_data_frame s) as F;
  let R := fresh "Hraises" in
  pose proof (update_data_raises s) as R;
  unfold outcome_of in R;
  unfold_refresh; cbn;
  fold (refresh_aborts scheduled s);
  destruct (refresh_aborts scheduled s) eqn:?; cbn;
  [ clear F R
  | let d := fresh "d" in
    let e := fresh "e" in
    let s1 := fresh "s1" in
    let ev1 := fresh "ev1" in
    destruct (_async_update_data s) as [[[d|e] s1] ev1] eqn:?; cbn in *;
    [ clear R
    | destruct e; cbn in *;
      try (exfalso; destruct (R _ eq_refl) as [? ?]; congruence); clear R ];
    destruct F as (Fd & Fs & Fx & Fa & Fi & Fn) ].

(* ================================================================== *)
(** ** Properties of one refresh *)

Section RefreshProperties.
Context {E : Environment}.

Lemma refresh_aborted (scheduled : bool) (s : state) :
  refresh_aborts scheduled s = true ->
  _async_refresh scheduled s =
    (Returned tt, s, [EvUnsubRefresh; EvDebouncedCancel]).
Proof.
  intros H. unfold_refresh. cbn. fold (refresh_aborts scheduled s).
  rewrite H. reflexivity.
Qed.

(** The outcome of a refresh: it raises what its poll raised when that is
    not an instance of [Exception], and returns otherwise. *)
Lemma refresh_outcome (scheduled : bool) (s : state) :
  outcome_of (_async_refresh scheduled) s =
    if refresh_aborts scheduled s then Returned tt
    else match outcome_of _async_update_data s with
         | Raised e => if is_Exception e then Returned tt else Raised e
         | Returned _ => Returned tt
         end.
Proof.
  run_refresh scheduled s; case_ifs; reflexivity.
Qed.

(** A refresh returns normally when its poll raises nothing but instances
    of [Exception]. *)
Lemma refresh_returns (scheduled : bool) (s : state) :
  (forall e, outcome_of _async_update_data s = Raised e ->
     is_Exception e = true) ->
  outcome_of (_async_refresh scheduled) s = Returned tt.
Proof.
  intros Hex. rewrite refresh_outcome.
  destruct (refresh_aborts scheduled s); [reflexivity|].
  destruct (outcome_of _async_update_data s) as [d|e]; [reflexivity|].
  rewrite (Hex e eq_refl). reflexivity.
Qed.

(** A sequence of refreshes runs its first one, then the others. *)
Lemma lifetime_cons (i : invocation) (rest : list invocation) (s : state) :
  let s0 := {| self := self s; env := host_activity i (env s) |} in
  let s1 := state_after (_async_refresh (scheduled_call i)) s0 in
  outcome_of (lifetime (i :: rest)) s =
    match outcome_of (_async_refresh (scheduled_call i)) s0 with
    | Raised e => Raised e
    | Returned _ => outcome_of (lifetime rest) s1
    end /\
  state_after (lifetime (i :: rest)) s = state_after (lifetime rest) s1 /\
  events_of (lifetime (i :: rest)) s =
    events_of (_async_refresh (scheduled_call i)) s0 ++
    events_of (lifetime rest) s1.
Proof.
  cbv zeta.
  unfold outcome_of, state_after, events_of.
  cbn [lifetime]. unfold bind, host_step, and_then.
  destruct (_async_refresh (scheduled_call i) _) as [[r s1] ev1]. cbn.
  destruct (lifetime rest s1) as [[r2 s2] ev2]. cbn.
  destruct r; auto.
Qed.

(** C1. A refresh whose poll fails, whatever the exception, leaves the cached
    data as it was; a refresh that is not aborted and whose poll returns [d]
    leaves exactly [d]; so the cached data changes only through a poll that
    returned. *)
Theorem failed_poll_keeps_snapshot (scheduled : bool) (s : state) :
  let s' := state_after (_async_refresh scheduled) s in
  (forall e, outcome_of _async_update_data s = Raised e ->
     data (self s') = data (self s)) /\
  (forall d, refresh_aborts scheduled s = false ->
     outcome_of _async_update_data s = Returned d ->
     data (self s') = d) /\
  (data (self s') <> data (self s) ->
     refresh_aborts scheduled s = false /\
     exists d, outcome_of _async_update_data s = Returned d /\
               data (self s') = d).
Proof.
  run_refresh scheduled s.
  - repeat split; intros; congruence.
  - case_ifs; repeat split; intros; try congruence; eauto.
  - case_ifs; repeat split; intros; try congruence; contradiction.
  - case_ifs; repeat split; intros; try congruence; contradiction.
  - case_ifs; repeat split; intros; try congruence; contradiction.
Qed.

(** C2. When the coordinator was already failed on entry: a poll that fails
    leaves it failed, and whenever it is still failed at the end of the
    invocation no call of the listeners was made. *)
Theorem repeated_failure_not_notified (scheduled : bool) (s : state) :
  last_update_success (self s) = false ->
  let s' := state_after (_async_refresh scheduled) s in
  let evs := events_of (_async_refresh scheduled) s in
  (forall e, outcome_of _async_update_data s = Raised e ->
     last_update_success (self s') = false) /\
  (last_update_success (self s') = false -> ~ In EvUpdateListeners evs).
Proof.
  intros Hprev. pose proof (update_data_no_listeners s) as Hnl.
  run_refresh scheduled s.
  - split; intros; [assumption|]. intros Hin. cbn in Hin.
    intuition discriminate.
  - rewrite Fs, Hprev. cbn. case_ifs; (split; [intros; congruence|]);
      intros; discriminate.
  - rewrite Hprev. case_ifs; (split; [reflexivity|]); intros _ Hin;
      rewrite ?in_app_iff in Hin; cbn in Hin; intuition discriminate.
  - rewrite Hprev. case_ifs; (split; [reflexivity|]); intros _ Hin;
      rewrite ?in_app_iff in Hin; cbn in Hin; intuition discriminate.
  - case_ifs; (split; [congruence|]); intros _ Hin;
      rewrite ?in_app_iff in Hin; cbn in Hin; intuition discriminate.
Qed.

(** C3. A refresh that is not aborted, entered with the coordinator failed,
    and whose poll returns [d]: the coordinator is marked successful, the
    recovery notice is logged at info severity, the listeners are called, and
    the cached data is [d], whatever [d] and the previous data are. *)
Theorem recovery_notifies (scheduled : bool) (s : state)
  (d : option ReturnOutputData) :
  refresh_aborts scheduled s = false ->
  last_update_success (self s) = false ->
  outcome_of _async_update_data s = Returned d ->
  let s' := state_after (_async_refresh scheduled) s in
  let evs := events_of (_async_refresh scheduled) s in
  last_update_success (self s') = true /\
  In (EvLog {| log_level := INFO;
               log_msg := "Fetching %s data recovered";
               log_args := [ArgStr (name (self s))];
               log_exc_info := false |}) evs /\
  In EvUpdateListeners evs /\
  data (self s') = d.
Proof.
  intros Hna Hprev Hpoll.
  run_refresh scheduled s; try congruence.
  rewrite Fs, Fn, Hprev. cbn.
  inversion Hpoll; subst.
  case_ifs;
    try (match goal with
         | H : _ || true || _ = false |- _ =>
             rewrite orb_true_r in H; discriminate H
         end);
    repeat split; try reflexivity;
    repeat (first [left; reflexivity | right]);
    rewrite ?in_app_iff; cbn; auto 10.
Qed.

(** C6. An invocation for which shutdown was requested, or a scheduled one
    while the host is stopping, returns at once: the coordinator state and
    the world are unchanged, and apart from cancelling the pending refreshes
    no call was made - none on the device client and no rescheduling. *)
Theorem aborted_refresh_is_noop (scheduled : bool) (s : state) :
  _shutdown_requested (env s) = true \/
  (scheduled = true /\ hass_is_stopping (env s) = true) ->
  let evs := events_of (_async_refresh scheduled) s in
  outcome_of (_async_refresh scheduled) s = Returned tt /\
  state_after (_async_refresh scheduled) s = s /\
  filter is_device_call evs = [] /\
  filter is_schedule evs = [] /\
  evs = [EvUnsubRefresh; EvDebouncedCancel].
Proof.
  intros H.
  assert (Ha : refresh_aborts scheduled s = true).
  { unfold refresh_aborts. destruct H as [H|[H1 H2]].
    - rewrite H. reflexivity.
    - rewrite H1, H2. apply orb_true_r. }
  cbv zeta. unfold outcome_of, state_after, events_of.
  rewrite (refresh_aborted _ _ Ha). cbn. repeat split.
Qed.

(** Under [reads_raise_only_Exceptions] a poll raises nothing else. *)
Lemma update_data_raises_Exception (s : state) (e : exn) :
  reads_raise_only_Exceptions ->
  outcome_of _async_update_data s = Raised e ->
  is_Exception e = true.
Proof.
  intros Hex. unfold outcome_of. unfold_update. cbn.
  destruct (device_info (self s)); cbn.
  - destruct (api_get_output_data (env s)) as [[d|e0] w] eqn:Ho; cbn;
      [discriminate|].
    apply (Hex (env s) w e0) in Ho.
    destruct e0; cbn; intros H; inversion H; subst; auto.
  - destruct (api_get_device_info (env s)) as [[v|e1] w1] eqn:Hi; cbn.
    + destruct (api_get_output_data w1) as [[d|e0] w] eqn:Ho; cbn;
        [discriminate|].
      apply (Hex w1 w e0) in Ho.
      destruct e0; cbn; intros H; inversion H; subst; auto.
    + apply (Hex (env s) w1 e1) in Hi. rewrite Hi. cbn.
      destruct (api_get_output_data w1) as [[d|e0] w] eqn:Ho; cbn;
        [discriminate|].
      apply (Hex w1 w e0) in Ho.
      destruct e0; cbn; intros H; inversion H; subst; auto.
Qed.

(** C7, as amended. A refresh whose poll raises nothing but instances of
    [Exception] returns normally, and when the device client raises nothing
    else on its reads so does any sequence of refreshes. When the poll of a
    refresh that is not aborted raises an instance of [Exception], the
    coordinator is marked failed, and if the exception is not
    [InverterNotAvailable] it is stored in [last_exception] and logged at
    error severity with the traceback. An exception that is not an instance
    of [Exception] is not absorbed: the refresh raises it, with
    [last_update_success] and [last_exception] as they were. *)
Theorem refresh_absorbs_Exceptions (scheduled : bool) (s : state) :
  let s' := state_after (_async_refresh scheduled) s in
  let evs := events_of (_async_refresh scheduled) s in
  ((forall e, outcome_of _async_update_data s = Raised e ->
      is_Exception e = true) ->
   outcome_of (_async_refresh scheduled) s = Returned tt) /\
  (reads_raise_only_Exceptions ->
   forall calls s0, outcome_of (lifetime calls) s0 = Returned tt) /\
  (refresh_aborts scheduled s = false ->
   forall e, outcome_of _async_update_data s = Raised e ->
     is_Exception e = true ->
     last_update_success (self s') = false /\
     (e <> InverterNotAvailable ->
        last_exception (self s') = Some e /\
        In (EvLog {| log_level := ERROR;
                     log_msg := "Unexpected error fetching %s data";
                     log_args := [ArgStr (name (self s))];
                     log_exc_info := true |}) evs)) /\
  (refresh_aborts scheduled s = false ->
   forall e, outcome_of _async_update_data s = Raised e ->
     is_Exception e = false ->
     outcome_of (_async_refresh scheduled) s = Raised e /\
     last_update_success (self s') = last_update_success (self s) /\
     last_exception (self s') = last_exception (self s)).
Proof.
  cbv zeta. split; [apply refresh_returns|]. split; [|split].
  - intros Hex calls.
    induction calls as [|i rest IH]; intros s0; [reflexivity|].
    destruct (lifetime_cons i rest s0) as (Ho & _). rewrite Ho.
    rewrite refresh_returns; [apply IH|].
    intros e He. exact (update_data_raises_Exception _ e Hex He).
  - intros Hna e Hpoll Hexc.
    run_refresh scheduled s; try congruence.
    + inversion Hpoll; subst. case_ifs; (split; [reflexivity|]); congruence.
    + inversion Hpoll; subst. rewrite Fn.
      case_ifs; (split; [reflexivity|]); intros _; (split; [reflexivity|]);
        rewrite ?in_app_iff; cbn; auto 10.
    + inversion Hpoll; subst. discriminate.
  - intros Hna e Hpoll Hexc.
    run_refresh scheduled s; try congruence;
      inversion Hpoll; subst; try discriminate.
    case_ifs; repeat split; assumption.
Qed.

(** C9. After a refresh that is not aborted, whatever the poll did: the next
    invocation was arranged (once, with the coordinator's interval) exactly
    when there are listeners and the host is not stopping, and not at all
    otherwise; the interval is 10 seconds when the constructor is given
    [None], and the given value otherwise. *)
Theorem reschedule_iff_listeners (scheduled : bool) (s : state) :
  refresh_aborts scheduled s = false ->
  let s' := state_after (_async_refresh scheduled) s in
  let evs := events_of (_async_refresh scheduled) s in
  filter is_schedule evs =
    (if _listeners (env s') && negb (hass_is_stopping (env s'))
     then [EvScheduleRefresh (update_interval (self s))] else []) /\
  update_interval (__init__ None) = 10 /\
  (forall i, update_interval (__init__ (Some i)) = i).
Proof.
  intros Hna. cbv zeta. split; [|split; [reflexivity|intros; reflexivity]].
  pose proof (update_data_no_schedule s) as Hns.
  run_refresh scheduled s; try congruence;
    rewrite ?Fi; case_ifs;
    repeat (rewrite ?filter_app; cbn [filter is_schedule app] in * );
    rewrite ?Hns; cbn; try reflexivity; try congruence.
Qed.

(** C10. A refresh changes [last_exception] only when its poll raises an
    exception other than [InverterNotAvailable], and then to that exception;
    after an [InverterNotAvailable] failure, after a poll that returned, and
    after an aborted invocation it is what it was. In particular a stored
    error stays in place while a recovery sets [last_update_success]. *)
Theorem last_exception_only_set_on_unexpected (scheduled : bool) (s : state) :
  let s' := state_after (_async_refresh scheduled) s in
  (last_exception (self s') <> last_exception (self s) ->
     refresh_aborts scheduled s = false /\
     exists e, outcome_of _async_update_data s = Raised e /\
               e <> InverterNotAvailable /\
               last_exception (self s') = Some e) /\
  (outcome_of _async_update_data s = Raised InverterNotAvailable ->
     last_exception (self s') = last_exception (self s)) /\
  (forall d, outcome_of _async_update_data s = Returned d ->
     last_exception (self s') = last_exception (self s)) /\
  (forall d err, refresh_aborts scheduled s = false ->
     outcome_of _async_update_data s = Returned d ->
     last_exception (self s) = Some err ->
     last_exception (self s') = Some err /\
     last_update_success (self s') = true).
Proof.
  run_refresh scheduled s.
  - repeat split; intros; congruence.
  - rewrite Fs. destruct (last_update_success (self s)); cbn;
      case_ifs; repeat split; intros; try congruence.
  - case_ifs; repeat split; intros; try congruence.
  - case_ifs; repeat split; intros; try congruence; eauto;
      eexists; repeat split; congruence.
  - case_ifs; repeat split; intros; try congruence.
Qed.

End RefreshProperties.

(* ================================================================== *)
(** ** The device-info cache over the lifetime of a coordinator *)

Section DeviceInfoProperties.
Context {E : Environment}.

Lemma device_info_calls_app (l1 l2 : list event) :
  device_info_calls (l1 ++ l2) = device_info_calls l1 ++ device_info_calls l2.
Proof.
  induction l1 as [|ev l1 IH]; [reflexivity|].
  destruct ev; cbn; rewrite IH; reflexivity.
Qed.

(** What one poll does to the cache, by cases on the cache and on the reply. *)
Lemma update_data_device_info (s : state) :
  let s1 := state_after _async_update_data s in
  let calls := device_info_calls (events_of _async_update_data s) in
  match device_info (self s) with
  | Some v => calls = [] /\ device_info (self s1) = Some v
  | None =>
      (calls = [false] /\ device_info (self s1) = None) \/
      (calls = [true] /\ exists v, device_info (self s1) = Some v)
  end.
Proof.
  unfold state_after, events_of. unfold_update. cbn.
  destruct (device_info (self s)) eqn:Hdi; cbn.
  - destruct (api_get_output_data (env s)) as [[d|e] w]; cbn;
      [|destruct e]; cbn; rewrite ?Hdi; split; reflexivity.
  - destruct (api_get_device_info (env s)) as [[v|e1] w1]; cbn;
      try destruct e1; cbn;
      try (destruct (api_get_output_data w1) as [[d|e] w]; cbn;
           try destruct e); cbn; rewrite ?Hdi; eauto.
Qed.

(** A refresh touches the cache only through its poll. *)
Lemma refresh_device_info (scheduled : bool) (s : state) :
  let s' := state_after (_async_refresh scheduled) s in
  let calls := device_info_calls (events_of (_async_refresh scheduled) s) in
  match device_info (self s) with
  | Some v => calls = [] /\ device_info (self s') = Some v
  | None =>
      (calls = [] /\ device_info (self s') = None) \/
      (calls = [false] /\ device_info (self s') = None) \/
      (calls = [true] /\ exists v, device_info (self s') = Some v)
  end.
Proof.
  pose proof (update_data_device_info s) as Hp.
  run_refresh scheduled s.
  - destruct (device_info (self s)); auto.
  - case_ifs; repeat (rewrite device_info_calls_app; cbn);
      rewrite ?app_nil_r; destruct (device_info (self s)); tauto.
  - case_ifs; repeat (rewrite device_info_calls_app; cbn);
      rewrite ?app_nil_r; destruct (device_info (self s)); tauto.
  - case_ifs; repeat (rewrite device_info_calls_app; cbn);
      rewrite ?app_nil_r; destruct (device_info (self s)); tauto.
  - case_ifs; repeat (rewrite device_info_calls_app; cbn);
      rewrite ?app_nil_r; destruct (device_info (self s)); tauto.
Qed.

Lemma lifetime_device_info (calls : list invocation) (s : state) :
  let s' := state_after (lifetime calls) s in
  let fetches := device_info_calls (events_of (lifetime calls) s) in
  match device_info (self s) with
  | Some v => fetches = [] /\ device_info (self s') = Some v
  | None =>
      exists n,
        fetches = repeat false n ++
                  match device_info (self s') with
                  | Some _ => [true]
                  | None => []
                  end
  end.
Proof.
  revert s. induction calls as [|i rest IH]; intros s; cbv zeta.
  - cbn. destruct (device_info (self s)) eqn:Hd; [auto|].
    exists 0%nat. reflexivity.
  - destruct (lifetime_cons i rest s) as (_ & Hs & He).
    rewrite Hs, He, device_info_calls_app. clear Hs He.
    set (s0 := {| self := self s; env := host_activity i (env s) |}).
    pose proof (refresh_device_info (scheduled_call i) s0) as Hr.
    cbv zeta in Hr. change (self s0) with (self s) in Hr.
    set (s1 := state_after (_async_refresh (scheduled_call i)) s0) in *.
    set (c1 := device_info_calls
                 (events_of (_async_refresh (scheduled_call i)) s0)) in *.
    specialize (IH s1). cbv zeta in IH.
    set (c2 := device_info_calls (events_of (lifetime rest) s1)) in *.
    set (s2 := state_after (lifetime rest) s1) in *.
    destruct (device_info (self s)) as [v|].
    + destruct Hr as [Hc Hd]. rewrite Hd in IH. destruct IH as [Hc2 Hd2].
      rewrite Hc, Hc2. auto.
    + destruct Hr as [[Hc Hd]|[[Hc Hd]|[Hc [v Hd]]]]; rewrite Hd in IH.
      * destruct IH as [n Hn]. exists n. rewrite Hc, Hn. reflexivity.
      * destruct IH as [n Hn]. exists (S n). rewrite Hc, Hn. reflexivity.
      * destruct IH as [Hc2 Hd2]. exists 0%nat. rewrite Hc, Hc2, Hd2.
        reflexivity.
Qed.

(** C4. In every poll, [get_device_info] is called, once, exactly when
    [device_info] is unset on entry. When that call fails (it raises an
    instance of [Exception]), the warning is logged, [device_info] stays
    unset, the data request is still made and a reading it returns is the
    result of the poll. When it returns,
    [device_info] is set. Over any sequence of refreshes of a new coordinator
    the [get_device_info] calls are a run of failures followed by one success
    at most, the success being there exactly when [device_info] ends set. *)
Theorem device_info_fetched_until_success :
  (forall s : state,
     device_info_calls (events_of _async_update_data s) =
       match device_info (self s) with
       | None => [is_returned (fst (api_get_device_info (env s)))]
       | Some _ => []
       end) /\
  (forall (s : state) e w,
     device_info (self s) = None ->
     api_get_device_info (env s) = (Raised e, w) ->
     is_Exception e = true ->
     events_of _async_update_data s =
       [EvGetDeviceInfo false;
        EvLog {| log_level := WARNING;
                 log_msg := "Failed to get device info: %s";
                 log_args := [ArgExn e];
                 log_exc_info := false |};
        EvGetOutputData] /\
     device_info (self (state_after _async_update_data s)) = None /\
     (forall d w', api_get_output_data w = (Returned d, w') ->
        outcome_of _async_update_data s = Returned d)) /\
  (forall (s : state) v w,
     device_info (self s) = None ->
     api_get_device_info (env s) = (Returned v, w) ->
     device_info (self (state_after _async_update_data s)) = Some v) /\
  (forall interval w0 calls,
     let s0 := {| self := __init__ interval; env := w0 |} in
     exists n,
       device_info_calls (events_of (lifetime calls) s0) =
         repeat false n ++
         match device_info (self (state_after (lifetime calls) s0)) with
         | Some _ => [true]
         | None => []
         end).
Proof.
  repeat split.
  - intros s. unfold events_of. unfold_update. cbn.
    destruct (device_info (self s)); cbn.
    + destruct (api_get_output_data (env s)) as [[d|e] w]; cbn;
        [|destruct e]; reflexivity.
    + destruct (api_get_device_info (env s)) as [[v|e1] w1]; cbn;
        try destruct e1; cbn;
        try (destruct (api_get_output_data w1) as [[d|e] w]; cbn;
             try destruct e); cbn; reflexivity.
  - unfold events_of. unfold_update. cbn. rewrite H, H0. cbn.
    rewrite H1. cbn.
    destruct (api_get_output_data w) as [[d|e0] w1]; cbn;
      [|destruct e0]; reflexivity.
  - unfold state_after. unfold_update. cbn. rewrite H, H0. cbn.
    rewrite H1. cbn.
    destruct (api_get_output_data w) as [[d|e0] w1]; cbn;
      [|destruct e0]; cbn; assumption.
  - intros d w' Hd. unfold outcome_of. unfold_update. cbn.
    rewrite H, H0. cbn. rewrite H1. cbn. rewrite Hd. reflexivity.
  - intros s v w H H0. unfold state_after. unfold_update. cbn.
    rewrite H, H0. cbn.
    destruct (api_get_output_data w) as [[d|e0] w1]; cbn;
      [|destruct e0]; reflexivity.
  - intros interval w0 calls.
    exact (lifetime_device_info calls
             {| self := __init__ interval; env := w0 |}).
Qed.

End DeviceInfoProperties.

(* ================================================================== *)
(** ** The set_power service *)

Section ServiceProperties.
Context {E : Environment} {K : Const}.

Ltac unfold_service :=
  unfold outcome_of, state_after, events_of, set_power_service, set_power,
    log, await, emit, bind, ret.

(** C5. With [MIN_VALUE <= MAX_VALUE]: a power below [MIN_VALUE] is sent as
    [MIN_VALUE] after a warning, a power above [MAX_VALUE] is sent as
    [MAX_VALUE] after a warning, and a power within the bounds is sent as it
    is, with no warning; in each case one command is sent. *)
Theorem set_power_service_clamps (power : Z) (s : state) :
  MIN_VALUE <= MAX_VALUE ->
  let evs := events_of (set_power_service power) s in
  let debug_line :=
    EvLog {| log_level := DEBUG; log_msg := "Setting power for %s watts";
             log_args := [ArgInt power]; log_exc_info := false |} in
  (power < MIN_VALUE ->
     evs = [debug_line;
            EvLog {| log_level := WARNING;
                     log_msg := "Power value %s is below minimum %s";
                     log_args := [ArgInt power; ArgInt MIN_VALUE];
                     log_exc_info := false |};
            EvSetPower MIN_VALUE]) /\
  (power > MAX_VALUE ->
     evs = [debug_line;
            EvLog {| log_level := WARNING;
                     log_msg := "Power value %s is above maximum %s";
                     log_args := [ArgInt power; ArgInt MAX_VALUE];
                     log_exc_info := false |};
            EvSetPower MAX_VALUE]) /\
  (MIN_VALUE <= power <= MAX_VALUE ->
     evs = [debug_line; EvSetPower power] /\ filter is_warning evs = []).
Proof.
  intros Hb. unfold_service. cbn.
  destruct (Z.ltb_spec power MIN_VALUE) as [Hlt|Hge]; cbn.
  - destruct (api_set_power MIN_VALUE (env s)) as [r w]; cbn.
    repeat split; intros; try lia; reflexivity.
  - destruct (Z.gtb_spec power MAX_VALUE) as [Hgt|Hle]; cbn.
    + destruct (api_set_power MAX_VALUE (env s)) as [r w]; cbn.
      repeat split; intros; try lia; reflexivity.
    + destruct (api_set_power power (env s)) as [r w]; cbn.
      repeat split; intros; try lia; reflexivity.
Qed.

(** C8. The service makes one call of the client's [set_power]; when that
    call raises [e], the service raises the same [e], having made no other
    device call and having left the coordinator as it was. *)
Theorem set_power_failure_propagates (power p : Z) (s : state) (e : exn)
  (w : world) :
  In (EvSetPower p) (events_of (set_power_service power) s) ->
  api_set_power p (env s) = (Raised e, w) ->
  outcome_of (set_power_service power) s = Raised e /\
  filter is_device_call (events_of (set_power_service power) s)
    = [EvSetPower p] /\
  state_after (set_power_service power) s = {| self := self s; env := w |}.
Proof.
  unfold_service. cbn.
  destruct (power <? MIN_VALUE); cbn;
    [|destruct (power >? MAX_VALUE); cbn];
    match goal with
    | |- context [api_set_power ?q (env s)] =>
        destruct (api_set_power q (env s)) as [r w1] eqn:Hq
    end; cbn;
    intros Hin Hp;
    repeat (destruct Hin as [Hin|Hin]; try discriminate Hin);
    try contradiction;
    inversion Hin; subst; rewrite Hp in Hq; inversion Hq; subst;
    repeat split.
Qed.

End ServiceProperties.

(* ================================================================== *)
(** ** The theorems on the scripted device *)

(** A recovery, in full: the pending refreshes are cancelled, the reading is
    requested (the device info is cached), the recovery is logged, the next
    refresh is arranged and the listeners are called. *)
Example recovering_run :
  let s' := state_after (_async_refresh true) recovering in
  events_of (_async_refresh true) recovering =
    [EvUnsubRefresh; EvDebouncedCancel; EvGetOutputData;
     EvLog {| log_level := INFO; log_msg := "Fetching %s data recovered";
              log_args := [ArgStr "APSystems EZHI Data"];
              log_exc_info := false |};
     EvScheduleRefresh 10; EvUpdateListeners] /\
  data (self s') = Some 42 /\
  last_update_success (self s') = true /\
  last_exception (self s') = Some (OtherException "ValueError") /\
  device_info (self s') = Some "EZHI" /\
  env s' = quiet_host [] [].
Proof. cbv zeta. repeat split. Qed.

(** A second failure in a row: nothing is logged and nobody is called. *)
Example still_down_run :
  events_of (_async_refresh true) still_down =
    [EvUnsubRefresh; EvDebouncedCancel; EvGetOutputData;
     EvScheduleRefresh 10].
Proof. reflexivity. Qed.

(** Two refreshes of a new coordinator: the device info is asked for once. *)
Example starting_twice :
  device_info_calls
    (events_of (lifetime [ {| host_activity := fun w => w;
                              scheduled_call := false |};
                           {| host_activity := fun w => w;
                              scheduled_call := true |} ]) starting)
  = [true].
Proof. reflexivity. Qed.

Lemma failed_poll_keeps_snapshot_witness :
  (outcome_of _async_update_data still_down = Raised InverterNotAvailable /\
   data (self (state_after (_async_refresh true) still_down)) = Some 7) /\
  (refresh_aborts true recovering = false /\
   outcome_of _async_update_data recovering = Returned (Some 42) /\
   data (self (state_after (_async_refresh true) recovering)) = Some 42).
Proof.
  split.
  - split; [reflexivity|].
    exact (proj1 (failed_poll_keeps_snapshot (E := scripted) true still_down)
             InverterNotAvailable eq_refl).
  - split; [reflexivity|]. split; [reflexivity|].
    exact (proj1 (proj2 (failed_poll_keeps_snapshot (E := scripted) true
                           recovering))
             (Some 42) eq_refl eq_refl).
Defined.

Lemma repeated_failure_not_notified_witness :
  last_update_success (self still_down) = false /\
  outcome_of _async_update_data still_down = Raised InverterNotAvailable /\
  last_update_success (self (state_after (_async_refresh true) still_down))
    = false /\
  ~ In EvUpdateListeners (events_of (_async_refresh true) still_down).
Proof.
  split; [reflexivity|]. split; [reflexivity|].
  pose (H := repeated_failure_not_notified (E := scripted) true still_down
               eq_refl).
  split.
  - exact (proj1 H InverterNotAvailable eq_refl).
  - exact (proj2 H (proj1 H InverterNotAvailable eq_refl)).
Defined.

Lemma recovery_notifies_witness :
  refresh_aborts true recovering = false /\
  last_update_success (self recovering) = false /\
  outcome_of _async_update_data recovering = Returned (Some 42) /\
  last_update_success (self (state_after (_async_refresh true) recovering))
    = true /\
  In EvUpdateListeners (events_of (_async_refresh true) recovering).
Proof.
  split; [reflexivity|]. split; [reflexivity|]. split; [reflexivity|].
  pose (H := recovery_notifies (E := scripted) true recovering (Some 42)
               eq_refl eq_refl eq_refl).
  split.
  - exact (proj1 H).
  - exact (proj1 (proj2 (proj2 H))).
Defined.

Lemma aborted_refresh_is_noop_witness :
  (true = true /\ hass_is_stopping (env shutting_down) = true) /\
  state_after (_async_refresh true) shutting_down = shutting_down /\
  filter is_device_call (events_of (_async_refresh true) shutting_down) = [].
Proof.
  split; [split; reflexivity|].
  pose (H := aborted_refresh_is_noop (E := scripted) true shutting_down
               (or_intror (conj eq_refl eq_refl))).
  split.
  - exact (proj1 (proj2 H)).
  - exact (proj1 (proj2 (proj2 H))).
Defined.

(** C7, as stated, fails: on a cancelled data request the refresh raises,
    and the failure is recorded neither in [last_update_success] nor in
    [last_exception]. *)
Lemma refresh_raises_on_cancellation :
  refresh_aborts false cancelled = false /\
  outcome_of (_async_refresh false) cancelled
    = Raised (OtherBaseException "CancelledError") /\
  last_update_success (self (state_after (_async_refresh false) cancelled))
    = true /\
  last_exception (self (state_after (_async_refresh false) cancelled))
    = None.
Proof. repeat split. Qed.

Lemma offline_reads_raise_only_Exceptions :
  reads_raise_only_Exceptions (E := offline).
Proof.
  intros w w' e. split; intros H; inversion H; reflexivity.
Defined.

Lemma refresh_absorbs_Exceptions_witness :
  (refresh_aborts false crashing = false /\
   outcome_of _async_update_data crashing
     = Raised (OtherException "KeyError") /\
   outcome_of (_async_refresh false) crashing = Returned tt /\
   last_update_success (self (state_after (_async_refresh false) crashing))
     = false /\
   last_exception (self (state_after (_async_refresh false) crashing))
     = Some (OtherException "KeyError")) /\
  (reads_raise_only_Exceptions (E := offline) /\
   outcome_of (E := offline)
     (lifetime [ {| host_activity := fun w => w; scheduled_call := false |};
                 {| host_activity := fun w => w; scheduled_call := true |} ])
     offline_start = Returned tt) /\
  (outcome_of _async_update_data cancelled
     = Raised (OtherBaseException "CancelledError") /\
   outcome_of (_async_refresh false) cancelled
     = Raised (OtherBaseException "CancelledError")).
Proof.
  split; [|split].
  - split; [reflexivity|]. split; [reflexivity|].
    pose (H := refresh_absorbs_Exceptions (E := scripted) false crashing).
    assert (Hex : forall e,
              outcome_of _async_update_data crashing = Raised e ->
              is_Exception e = true).
    { intros e He. cbv in He. inversion He. reflexivity. }
    split; [exact (proj1 H Hex)|].
    pose (H3 := proj1 (proj2 (proj2 H)) eq_refl
                  (OtherException "KeyError") eq_refl eq_refl).
    split; [exact (proj1 H3)|].
    refine (proj1 (proj2 H3 _)). discriminate.
  - split; [exact offline_reads_raise_only_Exceptions|].
    exact (proj1 (proj2 (refresh_absorbs_Exceptions (E := offline) false
                           offline_start))
             offline_reads_raise_only_Exceptions _ _).
  - split; [reflexivity|].
    exact (proj1 (proj2 (proj2 (proj2 (refresh_absorbs_Exceptions
                                         (E := scripted) false cancelled)))
                    eq_refl (OtherBaseException "CancelledError")
                    eq_refl eq_refl)).
Defined.

Lemma reschedule_iff_listeners_witness :
  refresh_aborts true recovering = false /\
  filter is_schedule (events_of (_async_refresh true) recovering)
    = [EvScheduleRefresh 10].
Proof.
  split; [reflexivity|].
  exact (proj1 (reschedule_iff_listeners (E := scripted) true recovering
                  eq_refl)).
Defined.

Lemma last_exception_only_set_on_unexpected_witness :
  (refresh_aborts true recovering = false /\
   outcome_of _async_update_data recovering = Returned (Some 42) /\
   last_exception (self recovering) = Some (OtherException "ValueError") /\
   last_exception (self (state_after (_async_refresh true) recovering))
     = Some (OtherException "ValueError") /\
   last_update_success (self (state_after (_async_refresh true) recovering))
     = true) /\
  (outcome_of _async_update_data still_down = Raised InverterNotAvailable /\
   last_exception (self (state_after (_async_refresh true) still_down))
     = Some (OtherException "ValueError")).
Proof.
  split.
  - split; [reflexivity|]. split; [reflexivity|]. split; [reflexivity|].
    exact (proj2 (proj2 (proj2 (last_exception_only_set_on_unexpected
                                  (E := scripted) true recovering)))
             (Some 42) (OtherException "ValueError")
             eq_refl eq_refl eq_refl).
  - split; [reflexivity|].
    exact (proj1 (proj2 (last_exception_only_set_on_unexpected
                           (E := scripted) true still_down)) eq_refl).
Defined.

Lemma device_info_fetched_until_success_witness :
  (device_info (self crashing) = None /\
   device_info (self (state_after _async_update_data crashing)) = None) /\
  (device_info (self starting) = None /\
   device_info (self (state_after _async_update_data starting))
     = Some "EZHI").
Proof.
  pose (H := device_info_fetched_until_success (E := scripted)).
  split.
  - split; [reflexivity|].
    exact (proj1 (proj2 (proj1 (proj2 H) crashing TimeoutError _
                           eq_refl eq_refl eq_refl))).
  - split; [reflexivity|].
    exact (proj1 (proj2 (proj2 H)) starting "EZHI" _ eq_refl eq_refl).
Defined.

Lemma set_power_service_clamps_witness :
  (@MIN_VALUE example_bounds <= @MAX_VALUE example_bounds) /\
  (5 < @MIN_VALUE example_bounds /\
   filter is_device_call
     (events_of (set_power_service (K := example_bounds) 5) recovering)
     = [EvSetPower 20]) /\
  (150 > @MAX_VALUE example_bounds /\
   filter is_device_call
     (events_of (set_power_service (K := example_bounds) 150) recovering)
     = [EvSetPower 100]) /\
  (@MIN_VALUE example_bounds <= 50 <= @MAX_VALUE example_bounds /\
   events_of (set_power_service (K := example_bounds) 50) recovering
     = [EvLog {| log_level := DEBUG; log_msg := "Setting power for %s watts";
                 log_args := [ArgInt 50]; log_exc_info := false |};
        EvSetPower 50]).
Proof.
  assert (Hb : @MIN_VALUE example_bounds <= @MAX_VALUE example_bounds)
    by (cbn; lia).
  assert (H5 : 5 < @MIN_VALUE example_bounds) by (cbn; lia).
  assert (H150 : 150 > @MAX_VALUE example_bounds) by (cbn; lia).
  assert (H50 : @MIN_VALUE example_bounds <= 50 <= @MAX_VALUE example_bounds)
    by (cbn; lia).
  split; [exact Hb|]. split; [|split].
  - split; [exact H5|].
    rewrite (proj1 (set_power_service_clamps (E := scripted)
                      (K := example_bounds) 5 recovering Hb) H5).
    reflexivity.
  - split; [exact H150|].
    rewrite (proj1 (proj2 (set_power_service_clamps (E := scripted)
                             (K := example_bounds) 150 recovering Hb)) H150).
    reflexivity.
  - split; [exact H50|].
    exact (proj1 (proj2 (proj2 (set_power_service_clamps (E := scripted)
                                  (K := example_bounds) 50 recovering Hb))
                    H50)).
Defined.

Lemma set_power_failure_propagates_witness :
  In (EvSetPower 100)
    (events_of (set_power_service (K := example_bounds) 150) refusing) /\
  outcome_of (set_power_service (K := example_bounds) 150) refusing
    = Raised (OtherException "InverterReturnedError").
Proof.
  assert (Hin : In (EvSetPower 100)
                  (events_of (set_power_service (K := example_bounds) 150)
                     refusing))
    by (cbn; auto).
  split; [exact Hin|].
  exact (proj1 (set_power_failure_propagates (E := scripted)
                  (K := example_bounds) 150 100 refusing
                  (OtherException "InverterReturnedError") _ Hin eq_refl)).
Defined.

(* ================================================================== *)
(** ** Further properties of a refresh *)

Section MoreRefreshProperties.
Context {E : Environment}.

(** What a poll is when the device info is cached: the data request alone. *)
Lemma update_data_cached (s : state) (v : ReturnDeviceInfo) :
  device_info (self s) = Some v ->
  _async_update_data s =
    match api_get_output_data (env s) with
    | (Returned d, w) =>
        (Returned d, {| self := self s; env := w |}, [EvGetOutputData])
    | (Raised e, w) =>
        (Raised match e with
                | TimeoutError | ClientConnectionError => InverterNotAvailable
                | _ => e
                end,
         {| self := self s; env := w |}, [EvGetOutputData])
    end.
Proof.
  intros Hv. unfold_update. cbn. rewrite Hv. cbn.
  destruct (api_get_output_data (env s)) as [[d|e] w]; cbn;
    [|destruct e]; reflexivity.
Qed.

Lemma update_data_filters (s : state) :
  let evs := events_of _async_update_data s in
  filter is_notify evs = [] /\
  filter is_data_request evs =
    (if info_fetch_uncaught s then [] else [EvGetOutputData]) /\
  filter is_cancel evs = [] /\
  filter is_debug_log evs = [].
Proof.
  unfold events_of, info_fetch_uncaught. unfold_update. cbn.
  destruct (device_info (self s)); cbn.
  - destruct (api_get_output_data (env s)) as [[d|e] w]; cbn;
      [|destruct e]; cbn; repeat split.
  - destruct (api_get_device_info (env s)) as [[v|e1] w1]; cbn;
      try destruct e1; cbn;
      try (destruct (api_get_output_data w1) as [[d|e] w]; cbn;
           try destruct e); cbn; repeat split.
Qed.

(** X1. After a refresh that is not aborted, [last_update_success] is
    true when the poll returned and false when it raised an instance of
    [Exception]; when the poll raised anything else, no handler ran and the
    flag is what it was. *)
Theorem success_flag_tracks_poll (scheduled : bool) (s : state) :
  refresh_aborts scheduled s = false ->
  last_update_success (self (state_after (_async_refresh scheduled) s)) =
    match outcome_of _async_update_data s with
    | Returned _ => true
    | Raised e =>
        if is_Exception e then false else last_update_success (self s)
    end.
Proof.
  intros Hna. run_refresh scheduled s; try congruence.
  - rewrite Fs. destruct (last_update_success (self s)); cbn;
      case_ifs; reflexivity.
  - case_ifs; reflexivity.
  - case_ifs; reflexivity.
  - case_ifs; assumption.
Qed.

(** X2. With [always_update] set, as the constructor sets it, a refresh that
    is not aborted and whose poll returns or raises an instance of
    [Exception] calls the listeners once, as its last call, unless the
    coordinator was failed on entry and the poll failed again; then it does
    not call them. So a first failure and an unchanged reading are both
    notified. When the poll raises anything else the refresh raises before
    the listeners are called. *)
Theorem notified_unless_repeated_failure (scheduled : bool) (s : state) :
  refresh_aborts scheduled s = false ->
  always_update (self s) = true ->
  let evs := events_of (_async_refresh scheduled) s in
  let repeated :=
    negb (last_update_success (self s)) &&
    negb (is_returned (outcome_of _async_update_data s)) in
  filter is_notify evs =
    (if repeated || poll_uncaught s then [] else [EvUpdateListeners]) /\
  (repeated || poll_uncaught s = false ->
   exists before, evs = before ++ [EvUpdateListeners]).
Proof.
  intros Hna Hau. pose proof (update_data_filters s) as (Hn & _).
  unfold poll_uncaught.
  run_refresh scheduled s; try congruence.
  - rewrite Fs, Fa, Hau.
    destruct (last_update_success (self s)); cbn; case_ifs;
      repeat (rewrite ?filter_app; cbn); rewrite ?Hn; cbn;
      (split; [reflexivity|]); intros _;
      repeat rewrite ?app_assoc, ?app_comm_cons; eexists; reflexivity.
  - rewrite ?Fa, ?Hau.
    destruct (last_update_success (self s)); cbn; case_ifs;
      repeat (rewrite ?filter_app; cbn); rewrite ?Hn; cbn;
      (split; [reflexivity|]); intros Hr; try discriminate Hr;
      repeat rewrite ?app_assoc, ?app_comm_cons; eexists; reflexivity.
  - rewrite ?Fa, ?Hau.
    destruct (last_update_success (self s)); cbn; case_ifs;
      repeat (rewrite ?filter_app; cbn); rewrite ?Hn; cbn;
      (split; [reflexivity|]); intros Hr; try discriminate Hr;
      repeat rewrite ?app_assoc, ?app_comm_cons; eexists; reflexivity.
  - rewrite orb_true_r. case_ifs;
      repeat (rewrite ?filter_app; cbn); rewrite ?Hn; cbn;
      (split; [reflexivity|]); intros Hr; discriminate Hr.
Qed.

(** A refresh writes none of the fields set once by the constructor. *)
Lemma refresh_configuration_frame (scheduled : bool) (s : state) :
  let c := self (state_after (_async_refresh scheduled) s) in
  always_update c = always_update (self s) /\
  update_interval c = update_interval (self s) /\
  name c = name (self s).
Proof.
  run_refresh scheduled s.
  - repeat split.
  - case_ifs; repeat split; assumption.
  - case_ifs; repeat split; assumption.
  - case_ifs; repeat split; assumption.
  - case_ifs; repeat split; assumption.
Qed.

(** X3. Whatever refreshes a coordinator goes through after its
    construction, [always_update] stays set, the polling interval stays the
    one given to the constructor (10 for [None]) and the name stays the
    same. *)
Theorem configuration_is_never_rewritten (interval : option Z) (w0 : world)
  (calls : list invocation) :
  let c := self (state_after (lifetime calls)
                   {| self := __init__ interval; env := w0 |}) in
  always_update c = true /\
  update_interval c = match interval with None => 10 | Some i => i end /\
  name c = "APSystems EZHI Data".
Proof.
  cbv zeta.
  assert (G : forall cs s0,
             let c := self (state_after (lifetime cs) s0) in
             always_update c = always_update (self s0) /\
             update_interval c = update_interval (self s0) /\
             name c = name (self s0)).
  { induction cs as [|i rest IH]; intros s0; cbv zeta.
    - repeat split.
    - destruct (lifetime_cons i rest s0) as (_ & Hs & _). rewrite Hs.
      destruct (IH (state_after (_async_refresh (scheduled_call i))
                      {| self := self s0;
                         env := host_activity i (env s0) |}))
        as (Ha & Hi & Hn).
      destruct (refresh_configuration_frame (scheduled_call i)
                  {| self := self s0; env := host_activity i (env s0) |})
        as (Ha' & Hi' & Hn').
      cbn [self] in Ha', Hi', Hn'.
      rewrite Ha, Hi, Hn, Ha', Hi', Hn'. repeat split. }
  destruct (G calls {| self := __init__ interval; env := w0 |})
    as (Ha & Hi & Hn).
  rewrite Ha, Hi, Hn. destruct interval; repeat split.
Qed.

(** X4. With the device info cached, a refresh that is not aborted and whose
    data request raises [TimeoutError] or [ClientConnectionError] fails
    quietly: the poll raises [InverterNotAvailable], nothing is logged at
    info severity or above, [last_exception] and the cached data are kept and
    the coordinator is marked failed. *)
Theorem connection_failure_is_quiet (scheduled : bool) (s : state)
  (v : ReturnDeviceInfo) (e : exn) (w : world) :
  refresh_aborts scheduled s = false ->
  device_info (self s) = Some v ->
  api_get_output_data (env s) = (Raised e, w) ->
  e = TimeoutError \/ e = ClientConnectionError ->
  let s' := state_after (_async_refresh scheduled) s in
  outcome_of _async_update_data s = Raised InverterNotAvailable /\
  filter is_loud_log (events_of (_async_refresh scheduled) s) = [] /\
  last_update_success (self s') = false /\
  last_exception (self s') = last_exception (self s) /\
  data (self s') = data (self s).
Proof.
  intros Hna Hv Hout He.
  pose proof (update_data_cached s v Hv) as Hpoll. rewrite Hout in Hpoll.
  assert (Hpoll' : _async_update_data s =
            (Raised InverterNotAvailable, {| self := self s; env := w |},
             [EvGetOutputData]))
    by (destruct He; subst e; exact Hpoll).
  clear Hpoll.
  run_refresh scheduled s; try congruence;
    inversion Hpoll'; subst; cbn in *;
    case_ifs; repeat split.
Qed.

(** X5. A device info fetched during a poll whose data request then raises
    is kept: the refresh ends with [device_info] set and the cached data as
    before; the coordinator is marked failed when what the data request
    raised is an instance of [Exception], and its flag is what it was
    otherwise. *)
Theorem device_info_kept_when_poll_fails (scheduled : bool) (s : state)
  (v : ReturnDeviceInfo) (e : exn) (w w' : world) :
  refresh_aborts scheduled s = false ->
  device_info (self s) = None ->
  api_get_device_info (env s) = (Returned v, w) ->
  api_get_output_data w = (Raised e, w') ->
  let s' := state_after (_async_refresh scheduled) s in
  device_info (self s') = Some v /\
  last_update_success (self s') =
    (if is_Exception e then false else last_update_success (self s)) /\
  data (self s') = data (self s).
Proof.
  intros Hna Hd Hinfo Hout.
  assert (Hpoll : exists e', e' <> TimeoutError /\
            is_Exception e' = is_Exception e /\
            _async_update_data s =
              (Raised e',
               {| self := {| data := data (self s);
                             last_update_success :=
                               last_update_success (self s);
                             last_exception := last_exception (self s);
                             device_info := Some v;
                             always_update := always_update (self s);
                             update_interval := update_interval (self s);
                             name := name (self s) |};
                  env := w' |},
               [EvGetDeviceInfo true; EvGetOutputData])).
  { unfold_update. cbn. rewrite Hd, Hinfo. cbn. rewrite Hout. cbn.
    destruct e; cbn; eexists;
      (split; [|split; [|reflexivity]]); try discriminate; reflexivity. }
  destruct Hpoll as (e' & _ & Hexc & Hpoll). rewrite <- Hexc.
  run_refresh scheduled s; try congruence;
    inversion Hpoll; subst; cbn in *;
    case_ifs; repeat split.
Qed.

(** X6. A refresh that is not aborted logs the timing line, once, exactly
    when debug logging was enabled on entry, and the line carries the value
    of [last_update_success] the refresh ends with. *)
Theorem timing_logged_iff_debug_enabled (scheduled : bool) (s : state) :
  refresh_aborts scheduled s = false ->
  let s' := state_after (_async_refresh scheduled) s in
  filter is_debug_log (events_of (_async_refresh scheduled) s) =
    if isEnabledFor_DEBUG (env s) then
      [EvLog {| log_level := DEBUG;
                log_msg :=
                  "Finished fetching %s data in %.3f seconds (success: %s)";
                log_args := [ArgStr (name (self s)); ArgElapsed;
                             ArgBool (last_update_success (self s'))];
                log_exc_info := false |}]
    else [].
Proof.
  intros Hna. pose proof (update_data_filters s) as (_ & _ & _ & Hd).
  run_refresh scheduled s; try congruence;
    rewrite ?Fn; case_ifs;
    repeat (rewrite ?filter_app; cbn); rewrite ?Hd; cbn;
    try reflexivity; try congruence.
Qed.

(** X7. Every refresh, aborted or not, starts by cancelling the pending
    scheduled refresh and the pending debounced refresh, and cancels nothing
    afterwards. *)
Theorem refresh_cancels_pending_first (scheduled : bool) (s : state) :
  exists rest,
    events_of (_async_refresh scheduled) s =
      EvUnsubRefresh :: EvDebouncedCancel :: rest /\
    filter is_cancel rest = [].
Proof.
  pose proof (update_data_filters s) as (_ & _ & Hc & _).
  run_refresh scheduled s; case_ifs; eexists; (split; [reflexivity|]);
    repeat (rewrite ?filter_app; cbn); rewrite ?Hc; reflexivity.
Qed.

(** X8. A refresh that is not aborted asks the device for its data at most
    once: exactly once, whatever the answer - a failed request is not
    retried within the refresh - except when the device info is unset and
    fetching it raises an exception that is not an instance of [Exception],
    in which case the data request is not made. *)
Theorem one_data_request_per_refresh (scheduled : bool) (s : state) :
  refresh_aborts scheduled s = false ->
  filter is_data_request (events_of (_async_refresh scheduled) s)
    = (if info_fetch_uncaught s then [] else [EvGetOutputData]).
Proof.
  intros Hna. pose proof (update_data_filters s) as (_ & Hd & _).
  run_refresh scheduled s; try congruence; case_ifs;
    repeat (rewrite ?filter_app; cbn); rewrite ?Hd; cbn;
    rewrite ?app_nil_r; reflexivity.
Qed.

End MoreRefreshProperties.

(* ================================================================== *)
(** ** Further properties of the set_power service *)

Section MoreServiceProperties.
Context {E : Environment} {K : Const}.

Ltac unfold_service :=
  unfold outcome_of, state_after, events_of, set_power_service, set_power,
    log, await, emit, bind, ret.

(** The service sends one command, with the value the two tests select. *)
Lemma set_power_service_sends (power : Z) (s : state) :
  sent_powers (events_of (set_power_service power) s) =
    [if power <? MIN_VALUE then MIN_VALUE
     else if power >? MAX_VALUE then MAX_VALUE else power].
Proof.
  unfold_service. cbn.
  destruct (power <? MIN_VALUE); cbn;
    [|destruct (power >? MAX_VALUE); cbn];
    match goal with
    | |- context [api_set_power ?q (env s)] =>
        destruct (api_set_power q (env s)) as [r w1]
    end; reflexivity.
Qed.

(** X9. With [MIN_VALUE <= MAX_VALUE], whatever integer the service is
    called with, the one value it sends to the device lies between
    [MIN_VALUE] and [MAX_VALUE]. *)
Theorem set_power_sends_within_bounds (power : Z) (s : state) :
  MIN_VALUE <= MAX_VALUE ->
  exists p,
    sent_powers (events_of (set_power_service power) s) = [p] /\
    MIN_VALUE <= p <= MAX_VALUE.
Proof.
  intros Hb. rewrite set_power_service_sends. eexists. split; [reflexivity|].
  destruct (Z.ltb_spec power MIN_VALUE); [lia|].
  destruct (Z.gtb_spec power MAX_VALUE); lia.
Qed.

(** X10. With [MIN_VALUE <= MAX_VALUE], calling the service again with the
    value it sent sends that value unchanged, and logs no warning. *)
Theorem set_power_resend_is_unchanged (power p : Z) (s s2 : state) :
  MIN_VALUE <= MAX_VALUE ->
  sent_powers (events_of (set_power_service power) s) = [p] ->
  sent_powers (events_of (set_power_service p) s2) = [p] /\
  filter is_warning (events_of (set_power_service p) s2) = [].
Proof.
  intros Hb. rewrite !set_power_service_sends. intros Hp.
  assert (Hr : MIN_VALUE <= p <= MAX_VALUE).
  { inversion Hp. destruct (Z.ltb_spec power MIN_VALUE); [lia|].
    destruct (Z.gtb_spec power MAX_VALUE); lia. }
  clear Hp.
  assert (H1 : (p <? MIN_VALUE) = false) by (apply Z.ltb_ge; lia).
  assert (H2 : (p >? MAX_VALUE) = false).
  { destruct (Z.gtb_spec p MAX_VALUE); [lia|reflexivity]. }
  rewrite H1, H2. split; [reflexivity|].
  unfold_service. cbn. rewrite H1. cbn. rewrite H2. cbn.
  destruct (api_set_power p (env s2)) as [r w1]. reflexivity.
Qed.

(** X11. The service leaves the coordinator as it is and makes no call
    other than its log lines and the one command: it reads nothing from the
    device, notifies nobody and schedules nothing, so the cached data is not
    refreshed by a command; and it returns when the command returns. *)
Theorem set_power_leaves_coordinator (power : Z) (s : state) :
  let evs := events_of (set_power_service power) s in
  self (state_after (set_power_service power) s) = self s /\
  filter is_data_request evs = [] /\
  device_info_calls evs = [] /\
  filter is_notify evs = [] /\
  filter is_schedule evs = [] /\
  (forall p w, sent_powers evs = [p] ->
     api_set_power p (env s) = (Returned tt, w) ->
     outcome_of (set_power_service power) s = Returned tt).
Proof.
  cbv zeta. rewrite set_power_service_sends.
  unfold_service. cbn.
  destruct (power <? MIN_VALUE); cbn;
    [|destruct (power >? MAX_VALUE); cbn];
    match goal with
    | |- context [api_set_power ?q (env s)] =>
        destruct (api_set_power q (env s)) as [r w1] eqn:Hq
    end; cbn; repeat split;
    intros p w Hp Hw; inversion Hp; subst; rewrite Hq in Hw;
    inversion Hw; reflexivity.
Qed.

End MoreServiceProperties.

(* ================================================================== *)
(** ** Properties of setting up and unloading *)

Section SetupProperties.
Context {E : Environment} {N : Names}.

Lemma dict_set_same {V : Type} (k : string) (v : V) (d : dict V) :
  dict_set k v d k = Some v.
Proof. unfold dict_set. rewrite String.eqb_refl. reflexivity. Qed.

Lemma dict_set_other {V : Type} (k k' : string) (v : V) (d : dict V) :
  k' <> k -> dict_set k v d k' = d k'.
Proof.
  intros H. unfold dict_set. apply String.eqb_neq in H. rewrite H.
  reflexivity.
Qed.

Lemma dict_del_same {V : Type} (k : string) (d : dict V) :
  dict_del k d k = None.
Proof. unfold dict_del. rewrite String.eqb_refl. reflexivity. Qed.

Lemma dict_del_other {V : Type} (k k' : string) (d : dict V) :
  k' <> k -> dict_del k d k' = d k'.
Proof.
  intros H. unfold dict_del. apply String.eqb_neq in H. rewrite H.
  reflexivity.
Qed.

(** Lookups after [hass.data[DOMAIN][id] = item]. *)
Lemma stored_entry_set (hass : HomeAssistant) (entries : dict (dict stored))
  (id : string) (item : dict stored) (svcs : list registration)
  (dm id' : string) :
  stored_entry
    {| hass_data := dict_set DOMAIN (dict_set id item entries)
                      (hass_data hass);
       hass_services := svcs |} dm id' =
  if String.eqb dm DOMAIN then
    if String.eqb id' id then Some item else entries id'
  else stored_entry hass dm id'.
Proof.
  unfold stored_entry, dict_set. cbn.
  destruct (String.eqb dm DOMAIN); reflexivity.
Qed.

Lemma setdefault_domain_spec (hass : HomeAssistant) :
  hass_services (setdefault_domain hass) = hass_services hass /\
  (exists entries,
     hass_data (setdefault_domain hass) DOMAIN = Some entries /\
     forall id, entries id = stored_entry hass DOMAIN id) /\
  (forall dm id,
     stored_entry (setdefault_domain hass) dm id = stored_entry hass dm id).
Proof.
  unfold setdefault_domain, stored_entry.
  destruct (hass_data hass DOMAIN) as [entries|] eqn:Hd; cbn.
  - split; [reflexivity|]. split; [|reflexivity].
    exists entries. rewrite Hd. split; reflexivity.
  - split; [reflexivity|]. split.
    + exists dict_empty. rewrite dict_set_same. split; reflexivity.
    + intros dm id. unfold dict_set.
      destruct (String.eqb dm DOMAIN) eqn:Hq; [|reflexivity].
      apply String.eqb_eq in Hq. subst dm. rewrite Hd. reflexivity.
Qed.

End SetupProperties.

Section SetupTheorems.
Context {E : Environment} {N : Names}.

(** X12. When [async_setup_entry] returns, [hass.data[DOMAIN][entry_id]]
    holds, under ["COORDINATOR"], a new coordinator - polling every
    [UPDATE_INTERVAL] seconds of the entry, every 10 seconds when the entry
    has none - with a client for the entry's address and a timeout of 8, and
    under every other key the value the entry has there; a ["COORDINATOR"]
    key of the entry itself is overwritten. *)
Theorem setup_stores_coordinator
  (fw : HomeAssistant -> ConfigEntry -> list Platform -> outcome unit)
  (entry : ConfigEntry) (hass : HomeAssistant) :
  fst (async_setup_entry fw entry hass) = Returned true ->
  let hass' := snd (async_setup_entry fw entry hass) in
  exists ip item,
    entry_data entry CONF_IP_ADDRESS = Some ip /\
    stored_entry hass' DOMAIN (entry_id entry) = Some item /\
    item "COORDINATOR" =
      Some (StoredCoordinator
              (__init__ match entry_data entry UPDATE_INTERVAL with
                        | Some (VInt i) => Some i
                        | _ => None
                        end)
              {| ip_address := ip; timeout := 8 |}) /\
    (forall k, k <> "COORDINATOR" ->
       item k = option_map StoredValue (entry_data entry k)).
Proof.
  unfold async_setup_entry.
  destruct (setdefault_domain_spec hass) as (_ & (entries & Hd & _) & _).
  rewrite Hd.
  destruct (entry_data entry CONF_IP_ADDRESS) as [ip|]; [|discriminate].
  unfold new_coordinator.
  destruct (entry_data entry UPDATE_INTERVAL) as [[|i|str]|]; cbn;
    try destruct (timedelta_accepts i); cbn;
    try discriminate;
    match goal with
    | |- context [fw ?h entry PLATFORMS] =>
        destruct (fw h entry PLATFORMS)
    end; cbn; try discriminate; intros _;
    eexists; eexists; (split; [reflexivity|]);
    rewrite stored_entry_set, !String.eqb_refl;
    (split; [reflexivity|]); unfold entry_store;
    (split; [apply dict_set_same|]);
    intros k Hk; rewrite dict_set_other by assumption; reflexivity.
Qed.

(** X13. Whatever its outcome, [async_setup_entry] leaves what is stored for
    every other entry, in this domain and in the others, as it was. *)
Theorem setup_keeps_other_entries
  (fw : HomeAssistant -> ConfigEntry -> list Platform -> outcome unit)
  (entry : ConfigEntry) (hass : HomeAssistant) (dm id : string) :
  dm <> DOMAIN \/ id <> entry_id entry ->
  stored_entry (snd (async_setup_entry fw entry hass)) dm id =
    stored_entry hass dm id.
Proof.
  intros Hne. unfold async_setup_entry.
  destruct (setdefault_domain_spec hass) as (_ & (entries & Hd & He) & Hs).
  rewrite Hd.
  assert (Hset : forall item svcs,
            stored_entry
              {| hass_data :=
                   dict_set DOMAIN (dict_set (entry_id entry) item entries)
                     (hass_data (setdefault_domain hass));
                 hass_services := svcs |} dm id = stored_entry hass dm id).
  { intros item svcs. rewrite stored_entry_set.
    destruct (String.eqb dm DOMAIN) eqn:Hq; [|apply Hs].
    apply String.eqb_eq in Hq. subst dm.
    destruct Hne as [Hne|Hne]; [congruence|].
    apply String.eqb_neq in Hne. rewrite Hne. apply He. }
  destruct (entry_data entry CONF_IP_ADDRESS) as [ip|]; cbn; [|apply Hs].
  destruct (new_coordinator (entry_data entry UPDATE_INTERVAL)) as [c|e];
    cbn; [|apply Hs].
  match goal with
  | |- context [fw ?h entry PLATFORMS] => destruct (fw h entry PLATFORMS)
  end; cbn; apply Hset.
Qed.

(** X14. For an entry whose data has no address, [async_setup_entry] raises
    [KeyError]: nothing is stored for any entry, the platforms are not set
    up and no service is registered - but the domain's dict exists from then
    on. *)
Theorem setup_without_address_raises
  (fw : HomeAssistant -> ConfigEntry -> list Platform -> outcome unit)
  (entry : ConfigEntry) (hass : HomeAssistant) :
  entry_data entry CONF_IP_ADDRESS = None ->
  let hass' := snd (async_setup_entry fw entry hass) in
  fst (async_setup_entry fw entry hass) = Raised KeyError /\
  (forall dm id, stored_entry hass' dm id = stored_entry hass dm id) /\
  hass_services hass' = hass_services hass /\
  hass_data hass' DOMAIN <> None.
Proof.
  intros Hip. unfold async_setup_entry. rewrite Hip. cbn.
  destruct (setdefault_domain_spec hass) as (Hsv & (entries & Hd & _) & Hs).
  repeat split; try assumption. rewrite Hd. discriminate.
Qed.

(** X15. When setting up the platforms raises, [async_setup_entry] raises
    the same exception and registers no service, but the entry it stored in
    [hass.data] stays there. *)
Theorem setup_platform_failure_keeps_entry
  (fw : HomeAssistant -> ConfigEntry -> list Platform -> outcome unit)
  (entry : ConfigEntry) (hass : HomeAssistant) (ip : value)
  (c : ApSystemsDataCoordinator) (e : exn) :
  entry_data entry CONF_IP_ADDRESS = Some ip ->
  new_coordinator (entry_data entry UPDATE_INTERVAL) = Returned c ->
  (forall h, fw h entry PLATFORMS = Raised e) ->
  let hass' := snd (async_setup_entry fw entry hass) in
  fst (async_setup_entry fw entry hass) = Raised e /\
  stored_entry hass' DOMAIN (entry_id entry) =
    Some (entry_store entry c {| ip_address := ip; timeout := 8 |}) /\
  hass_services hass' = hass_services hass.
Proof.
  intros Hip Hc Hfw. unfold async_setup_entry. rewrite Hip, Hc.
  destruct (setdefault_domain_spec hass) as (Hsv & (entries & Hd & _) & _).
  rewrite Hd, Hfw. cbn.
  rewrite stored_entry_set, !String.eqb_refl. repeat split. assumption.
Qed.

(** X16. An entry that was set up and is then unloaded, the platforms
    agreeing, is no longer in [hass.data]; the other entries are as they
    were before the set-up; the service registered by the set-up is still
    registered. *)
Theorem setup_then_unload_removes_entry
  (fw : HomeAssistant -> ConfigEntry -> list Platform -> outcome unit)
  (up : HomeAssistant -> ConfigEntry -> list Platform -> outcome bool)
  (entry : ConfigEntry) (hass : HomeAssistant) :
  fst (async_setup_entry fw entry hass) = Returned true ->
  let hass1 := snd (async_setup_entry fw entry hass) in
  up hass1 entry PLATFORMS = Returned true ->
  let hass2 := snd (async_unload_entry up entry hass1) in
  fst (async_unload_entry up entry hass1) = Returned true /\
  stored_entry hass2 DOMAIN (entry_id entry) = None /\
  (forall dm id, dm <> DOMAIN \/ id <> entry_id entry ->
     stored_entry hass2 dm id = stored_entry hass dm id) /\
  hass_services hass2 = hass_services hass1 /\
  exists api,
    hass_services hass1 =
      hass_services hass ++
      [{| service_domain := DOMAIN; service_name := "set_power";
          service_api := api |}].
Proof.
  intros Hok hass1 Hup hass2.
  pose proof (setup_keeps_other_entries fw entry hass) as Hother.
  fold hass1 in Hother.
  assert (H1 : exists item entries svcs api,
            hass_data hass1 DOMAIN =
              Some (dict_set (entry_id entry) item entries) /\
            hass_services hass1 = svcs /\
            svcs = hass_services hass ++
                   [{| service_domain := DOMAIN; service_name := "set_power";
                       service_api := api |}]).
  { subst hass1. revert Hok. unfold async_setup_entry.
    destruct (setdefault_domain_spec hass) as (Hsv & (entries & Hd & _) & _).
    rewrite Hd, Hsv.
    destruct (entry_data entry CONF_IP_ADDRESS) as [ip|]; [|discriminate].
    destruct (new_coordinator (entry_data entry UPDATE_INTERVAL)) as [c|e];
      [|discriminate].
    match goal with
    | |- context [fw ?h entry PLATFORMS] => destruct (fw h entry PLATFORMS)
    end; cbn; [|discriminate]. intros _.
    rewrite dict_set_same. do 4 eexists. repeat split. }
  destruct H1 as (item & entries & svcs & api & Hd1 & Hs1 & Hsv).
  subst hass2. unfold async_unload_entry. rewrite Hup, Hd1, dict_set_same.
  cbn. split; [reflexivity|]. split.
  - unfold stored_entry. cbn. rewrite dict_set_same. apply dict_del_same.
  - split; [|split; [reflexivity|exists api; congruence]].
    intros dm id Hne. rewrite <- (Hother dm id Hne).
    unfold stored_entry. cbn. unfold dict_set at 1.
    destruct (String.eqb dm DOMAIN) eqn:Hq; [|reflexivity].
    apply String.eqb_eq in Hq. subst dm. rewrite Hd1.
    destruct Hne as [Hne|Hne]; [congruence|].
    rewrite dict_del_other by assumption. reflexivity.
Qed.

(** X17. [async_unload_entry] removes nothing, and leaves [hass] as it is,
    in three cases: the platforms refuse to unload (it returns false), the
    unloading of the platforms raises (it raises the same exception), and the
    entry is not in [hass.data] although the platforms unloaded (it raises
    [KeyError]). *)
Theorem unload_without_removal
  (up : HomeAssistant -> ConfigEntry -> list Platform -> outcome bool)
  (entry : ConfigEntry) (hass : HomeAssistant) :
  (up hass entry PLATFORMS = Returned false ->
     async_unload_entry up entry hass = (Returned false, hass)) /\
  (forall e, up hass entry PLATFORMS = Raised e ->
     async_unload_entry up entry hass = (Raised e, hass)) /\
  (up hass entry PLATFORMS = Returned true ->
   stored_entry hass DOMAIN (entry_id entry) = None ->
     async_unload_entry up entry hass = (Raised KeyError, hass)).
Proof.
  unfold async_unload_entry, stored_entry. repeat split.
  - intros H. rewrite H. reflexivity.
  - intros e H. rewrite H. reflexivity.
  - intros H Hs. rewrite H.
    destruct (hass_data hass DOMAIN) as [entries|]; [|reflexivity].
    rewrite Hs. reflexivity.
Qed.

(** X18. Two entries set up one after the other register their handlers
    under one and the same service, [set_power] of the domain, each handler
    being bound to the client of its own entry. *)
Theorem two_setups_share_the_service
  (fw : HomeAssistant -> ConfigEntry -> list Platform -> outcome unit)
  (first second : ConfigEntry) (hass : HomeAssistant) :
  fst (async_setup_entry fw first hass) = Returned true ->
  let hass1 := snd (async_setup_entry fw first hass) in
  fst (async_setup_entry fw second hass1) = Returned true ->
  let hass2 := snd (async_setup_entry fw second hass1) in
  exists ip1 ip2,
    entry_data first CONF_IP_ADDRESS = Some ip1 /\
    entry_data second CONF_IP_ADDRESS = Some ip2 /\
    hass_services hass2 =
      hass_services hass ++
      [{| service_domain := DOMAIN; service_name := "set_power";
          service_api := {| ip_address := ip1; timeout := 8 |} |};
       {| service_domain := DOMAIN; service_name := "set_power";
          service_api := {| ip_address := ip2; timeout := 8 |} |}].
Proof.
  assert (G : forall entry h,
            fst (async_setup_entry fw entry h) = Returned true ->
            exists ip,
              entry_data entry CONF_IP_ADDRESS = Some ip /\
              hass_services (snd (async_setup_entry fw entry h)) =
                hass_services h ++
                [{| service_domain := DOMAIN; service_name := "set_power";
                    service_api := {| ip_address := ip; timeout := 8 |} |}]).
  { intros entry h. unfold async_setup_entry.
    destruct (setdefault_domain_spec h) as (Hsv & (entries & Hd & _) & _).
    rewrite Hd, Hsv.
    destruct (entry_data entry CONF_IP_ADDRESS) as [ip|]; [|discriminate].
    destruct (new_coordinator (entry_data entry UPDATE_INTERVAL)) as [c|e];
      [|discriminate].
    match goal with
    | |- context [fw ?h0 entry PLATFORMS] => destruct (fw h0 entry PLATFORMS)
    end; cbn; [|discriminate]. intros _. eexists. split; reflexivity. }
  intros H1 hass1 H2 hass2.
  destruct (G first hass H1) as (ip1 & Hi1 & Hs1).
  destruct (G second hass1 H2) as (ip2 & Hi2 & Hs2).
  exists ip1, ip2. split; [assumption|]. split; [assumption|].
  subst hass2. rewrite Hs2. subst hass1. rewrite Hs1.
  rewrite <- app_assoc. reflexivity.
Qed.

End SetupTheorems.

(* ================================================================== *)
(** ** The further properties on the scripted device *)

Lemma success_flag_tracks_poll_witness :
  refresh_aborts true recovering = false /\
  last_update_success (self (state_after (_async_refresh true) recovering))
    = true.
Proof.
  split; [reflexivity|].
  exact (success_flag_tracks_poll (E := scripted) true recovering eq_refl).
Defined.

Lemma notified_unless_repeated_failure_witness :
  (refresh_aborts true still_down = false /\
   always_update (self still_down) = true /\
   filter is_notify (events_of (_async_refresh true) still_down) = []) /\
  (refresh_aborts true recovering = false /\
   always_update (self recovering) = true /\
   exists before,
     events_of (_async_refresh true) recovering
       = before ++ [EvUpdateListeners]).
Proof.
  split.
  - split; [reflexivity|]. split; [reflexivity|].
    exact (proj1 (notified_unless_repeated_failure (E := scripted) true
                    still_down eq_refl eq_refl)).
  - split; [reflexivity|]. split; [reflexivity|].
    exact (proj2 (notified_unless_repeated_failure (E := scripted) true
                    recovering eq_refl eq_refl) eq_refl).
Defined.

Lemma connection_failure_is_quiet_witness :
  refresh_aborts true still_down = false /\
  device_info (self still_down) = Some "EZHI" /\
  fst (api_get_output_data (env still_down)) = Raised ClientConnectionError /\
  filter is_loud_log (events_of (_async_refresh true) still_down) = [] /\
  last_exception (self (state_after (_async_refresh true) still_down))
    = Some (OtherException "ValueError").
Proof.
  split; [reflexivity|]. split; [reflexivity|]. split; [reflexivity|].
  pose (H := connection_failure_is_quiet (E := scripted) true still_down
               "EZHI" ClientConnectionError _ eq_refl eq_refl eq_refl
               (or_intror eq_refl)).
  split.
  - exact (proj1 (proj2 H)).
  - exact (proj1 (proj2 (proj2 (proj2 H)))).
Defined.

Lemma device_info_kept_when_poll_fails_witness :
  refresh_aborts false half_answering = false /\
  device_info (self half_answering) = None /\
  device_info (self (state_after (_async_refresh false) half_answering))
    = Some "EZHI" /\
  last_update_success
    (self (state_after (_async_refresh false) half_answering)) = false.
Proof.
  split; [reflexivity|]. split; [reflexivity|].
  pose (H := device_info_kept_when_poll_fails (E := scripted) false
               half_answering "EZHI" TimeoutError _ _
               eq_refl eq_refl eq_refl eq_refl).
  split.
  - exact (proj1 H).
  - exact (proj1 (proj2 H)).
Defined.

Lemma timing_logged_iff_debug_enabled_witness :
  refresh_aborts true debugging = false /\
  filter is_debug_log (events_of (_async_refresh true) debugging) =
    [EvLog {| log_level := DEBUG;
              log_msg :=
                "Finished fetching %s data in %.3f seconds (success: %s)";
              log_args := [ArgStr "APSystems EZHI Data"; ArgElapsed;
                           ArgBool true];
              log_exc_info := false |}].
Proof.
  split; [reflexivity|].
  exact (timing_logged_iff_debug_enabled (E := scripted) true debugging
           eq_refl).
Defined.

Lemma one_data_request_per_refresh_witness :
  refresh_aborts true still_down = false /\
  filter is_data_request (events_of (_async_refresh true) still_down)
    = [EvGetOutputData].
Proof.
  split; [reflexivity|].
  exact (one_data_request_per_refresh (E := scripted) true still_down
           eq_refl).
Defined.

Lemma set_power_sends_within_bounds_witness :
  @MIN_VALUE example_bounds <= @MAX_VALUE example_bounds /\
  exists p,
    sent_powers
      (events_of (set_power_service (K := example_bounds) 150) accepting)
      = [p] /\
    @MIN_VALUE example_bounds <= p <= @MAX_VALUE example_bounds.
Proof.
  assert (Hb : @MIN_VALUE example_bounds <= @MAX_VALUE example_bounds)
    by (cbn; lia).
  split; [exact Hb|].
  exact (set_power_sends_within_bounds (E := scripted) (K := example_bounds)
           150 accepting Hb).
Defined.

Lemma set_power_resend_is_unchanged_witness :
  @MIN_VALUE example_bounds <= @MAX_VALUE example_bounds /\
  sent_powers
    (events_of (set_power_service (K := example_bounds) 5) accepting)
    = [20] /\
  sent_powers
    (events_of (set_power_service (K := example_bounds) 20) refusing)
    = [20] /\
  filter is_warning
    (events_of (set_power_service (K := example_bounds) 20) refusing) = [].
Proof.
  assert (Hb : @MIN_VALUE example_bounds <= @MAX_VALUE example_bounds)
    by (cbn; lia).
  split; [exact Hb|]. split; [reflexivity|].
  exact (set_power_resend_is_unchanged (E := scripted) (K := example_bounds)
           5 20 accepting refusing Hb eq_refl).
Defined.

Lemma set_power_leaves_coordinator_witness :
  sent_powers
    (events_of (set_power_service (K := example_bounds) 50) accepting)
    = [50] /\
  fst (api_set_power 50 (env accepting)) = Returned tt /\
  outcome_of (set_power_service (K := example_bounds) 50) accepting
    = Returned tt.
Proof.
  split; [reflexivity|]. split; [reflexivity|].
  exact (proj2 (proj2 (proj2 (proj2 (proj2
           (set_power_leaves_coordinator (E := scripted)
              (K := example_bounds) 50 accepting)))))
           50 _ eq_refl eq_refl).
Defined.

Lemma setup_stores_coordinator_witness :
  fst (async_setup_entry (E := scripted) (N := example_names)
         platforms_ok garage_entry empty_hass) = Returned true /\
  exists ip item,
    entry_data garage_entry "ip_address" = Some ip /\
    stored_entry
      (snd (async_setup_entry (E := scripted) (N := example_names)
              platforms_ok garage_entry empty_hass))
      "apsystems_ezhi_local" "garage" = Some item /\
    item "COORDINATOR" =
      Some (StoredCoordinator (__init__ (Some 30))
              {| ip_address := ip; timeout := 8 |}) /\
    (forall k, k <> "COORDINATOR" ->
       item k = option_map StoredValue (entry_data garage_entry k)).
Proof.
  split; [reflexivity|].
  exact (setup_stores_coordinator (E := scripted) (N := example_names)
           platforms_ok garage_entry empty_hass eq_refl).
Defined.

Lemma setup_keeps_other_entries_witness :
  "garage" <> "roof" /\
  stored_entry
    (snd (async_setup_entry (E := scripted) (N := example_names)
            platforms_ok roof_entry
            (snd (async_setup_entry (E := scripted) (N := example_names)
                    platforms_ok garage_entry empty_hass))))
    "apsystems_ezhi_local" "garage" =
  stored_entry
    (snd (async_setup_entry (E := scripted) (N := example_names)
            platforms_ok garage_entry empty_hass))
    "apsystems_ezhi_local" "garage".
Proof.
  assert (Hne : "garage" <> "roof") by discriminate.
  split; [exact Hne|].
  exact (setup_keeps_other_entries (E := scripted) (N := example_names)
           platforms_ok roof_entry
           (snd (async_setup_entry (E := scripted) (N := example_names)
                   platforms_ok garage_entry empty_hass))
           "apsystems_ezhi_local" "garage" (or_intror Hne)).
Defined.

Lemma setup_without_address_raises_witness :
  entry_data broken_entry "ip_address" = None /\
  fst (async_setup_entry (E := scripted) (N := example_names)
         platforms_ok broken_entry empty_hass) = Raised KeyError /\
  hass_services
    (snd (async_setup_entry (E := scripted) (N := example_names)
            platforms_ok broken_entry empty_hass)) = [].
Proof.
  split; [reflexivity|].
  pose (H := setup_without_address_raises (E := scripted)
               (N := example_names) platforms_ok broken_entry empty_hass
               eq_refl).
  split.
  - exact (proj1 H).
  - exact (proj1 (proj2 (proj2 H))).
Defined.

Lemma setup_platform_failure_keeps_entry_witness :
  entry_data garage_entry "ip_address" = Some (VStr "192.168.1.50") /\
  fst (async_setup_entry (E := scripted) (N := example_names)
         platforms_fail garage_entry empty_hass)
    = Raised (OtherException "ConfigEntryNotReady") /\
  hass_services
    (snd (async_setup_entry (E := scripted) (N := example_names)
            platforms_fail garage_entry empty_hass)) = [].
Proof.
  split; [reflexivity|].
  pose (H := setup_platform_failure_keeps_entry (E := scripted)
               (N := example_names) platforms_fail garage_entry empty_hass
               (VStr "192.168.1.50") (__init__ (Some 30))
               (OtherException "ConfigEntryNotReady")
               eq_refl eq_refl (fun _ => eq_refl)).
  split.
  - exact (proj1 H).
  - exact (proj2 (proj2 H)).
Defined.

Lemma setup_then_unload_removes_entry_witness :
  fst (async_setup_entry (E := scripted) (N := example_names)
         platforms_ok garage_entry empty_hass) = Returned true /\
  stored_entry
    (snd (async_unload_entry (E := scripted) (N := example_names)
            (unload_answers true) garage_entry
            (snd (async_setup_entry (E := scripted) (N := example_names)
                    platforms_ok garage_entry empty_hass))))
    "apsystems_ezhi_local" "garage" = None.
Proof.
  split; [reflexivity|].
  exact (proj1 (proj2 (setup_then_unload_removes_entry (E := scripted)
                         (N := example_names) platforms_ok
                         (unload_answers true) garage_entry empty_hass
                         eq_refl eq_refl))).
Defined.

Lemma unload_without_removal_witness :
  stored_entry empty_hass "apsystems_ezhi_local" "garage" = None /\
  async_unload_entry (E := scripted) (N := example_names)
    (unload_answers true) garage_entry empty_hass
    = (Raised KeyError, empty_hass) /\
  async_unload_entry (E := scripted) (N := example_names)
    (unload_answers false) garage_entry empty_hass
    = (Returned false, empty_hass).
Proof.
  split; [reflexivity|]. split.
  - exact (proj2 (proj2 (unload_without_removal (E := scripted)
                           (N := example_names) (unload_answers true)
                           garage_entry empty_hass)) eq_refl eq_refl).
  - exact (proj1 (unload_without_removal (E := scripted)
                    (N := example_names) (unload_answers false)
                    garage_entry empty_hass) eq_refl).
Defined.

Lemma two_setups_share_the_service_witness :
  fst (async_setup_entry (E := scripted) (N := example_names)
         platforms_ok garage_entry empty_hass) = Returned true /\
  exists ip1 ip2,
    entry_data garage_entry "ip_address" = Some ip1 /\
    entry_data roof_entry "ip_address" = Some ip2 /\
    hass_services
      (snd (async_setup_entry (E := scripted) (N := example_names)
              platforms_ok roof_entry
              (snd (async_setup_entry (E := scripted) (N := example_names)
                      platforms_ok garage_entry empty_hass)))) =
      [{| service_domain := "apsystems_ezhi_local";
          service_name := "set_power";
          service_api := {| ip_address := ip1; timeout := 8 |} |};
       {| service_domain := "apsystems_ezhi_local";
          service_name := "set_power";
          service_api := {| ip_address := ip2; timeout := 8 |} |}].
Proof.
  split; [reflexivity|].
  exact (two_setups_share_the_service (E := scripted) (N := example_names)
           platforms_ok garage_entry roof_entry empty_hass
           eq_refl eq_refl).
Defined.
